(** * Chat synchronisation core of the medical-network client

    A shallow embedding of [stores/useChatStore.ts] together with the SQL
    functions and triggers of the chat migrations it calls into.

    - [Sql]      : the tables, the triggers and the [mark_messages_as_read]
                   functions, as state transformers on a database value.
    - [Backend]  : the hosted service as the store sees it: the session, the
                   REST requests (which may fail in transit), the id and clock
                   sources, and the realtime channels.
    - [ChatStore]: the zustand store, one definition per store action.

    Modelling boundary.  SQL statements run with the rights of the table
    owner: row-level-security policies and foreign-key checks are not part
    of the model; primary keys, [UNIQUE(user_id, doctor_id)] and the
    ON DELETE CASCADE of [chat_messages.chat_id] are.  Timestamps are the
    millisecond values [new Date(s).getTime()] yields.  Every store action
    runs to completion before the next one starts. *)

From Stdlib Require Import String List ZArith Bool Lia Permutation Sorted.
From Stdlib Require DecimalString.
Import ListNotations.
Local Open Scope string_scope.
Local Open Scope Z_scope.
Local Open Scope list_scope.

Set Implicit Arguments.

Definition uuid := string.
Definition timestamptz := Z.

(** [a = b] on nullable uuid columns, in a WHERE clause: a NULL never
    matches. *)
Definition sql_eq (col : option uuid) (v : uuid) : bool :=
  match col with
  | Some c => String.eqb c v
  | None => false
  end.

(* ================================================================== *)
(** ** The database: tables, triggers, functions *)

Module Sql.

Record profiles_row := {
  p_id : uuid;
  p_full_name : string;
  p_avatar_url : string;
  p_specialty : string
}.

(** [chats]: "Create Chat System Tables" plus the [unread_count] column of
    "Add Chat Management Columns". *)
Record chats_row := {
  c_id : uuid;
  c_user_id : uuid;
  c_doctor_id : uuid;
  c_is_archived : bool;
  c_is_muted : bool;
  c_created_at : timestamptz;
  c_updated_at : timestamptz;
  c_last_message_at : timestamptz;
  c_unread_count : Z
}.

Record chat_groups_row := {
  g_id : uuid;
  g_name : string;
  g_description : option string;
  g_created_by : uuid;
  g_avatar_url : option string;
  g_created_at : timestamptz;
  g_updated_at : timestamptz;
  g_last_message_at : timestamptz;
  g_is_archived : bool;
  g_is_muted : bool;
  g_unread_count : Z
}.

Record chat_group_members_row := {
  gm_group_id : uuid;
  gm_user_id : uuid;
  gm_role : string;
  gm_joined_at : timestamptz
}.

Record chat_messages_row := {
  m_id : uuid;
  m_chat_id : option uuid;
  m_group_id : option uuid;
  m_sender_id : uuid;
  m_content : string;
  m_is_read : bool;
  m_created_at : timestamptz
}.

Record Db := {
  profiles : list profiles_row;
  chats : list chats_row;
  chat_groups : list chat_groups_row;
  chat_group_members : list chat_group_members_row;
  chat_messages : list chat_messages_row
}.

Definition with_chats (d : Db) (cs : list chats_row) : Db :=
  {| profiles := profiles d; chats := cs; chat_groups := chat_groups d;
     chat_group_members := chat_group_members d;
     chat_messages := chat_messages d |}.

Definition with_chat_groups (d : Db) (gs : list chat_groups_row) : Db :=
  {| profiles := profiles d; chats := chats d; chat_groups := gs;
     chat_group_members := chat_group_members d;
     chat_messages := chat_messages d |}.

Definition with_chat_group_members (d : Db)
    (ms : list chat_group_members_row) : Db :=
  {| profiles := profiles d; chats := chats d; chat_groups := chat_groups d;
     chat_group_members := ms; chat_messages := chat_messages d |}.

Definition with_chat_messages (d : Db) (ms : list chat_messages_row) : Db :=
  {| profiles := profiles d; chats := chats d; chat_groups := chat_groups d;
     chat_group_members := chat_group_members d; chat_messages := ms |}.

(** *** Row updates used by the triggers and functions *)

Definition chat_set_activity (t : timestamptz) (c : chats_row) : chats_row :=
  {| c_id := c_id c; c_user_id := c_user_id c; c_doctor_id := c_doctor_id c;
     c_is_archived := c_is_archived c; c_is_muted := c_is_muted c;
     c_created_at := c_created_at c; c_updated_at := t;
     c_last_message_at := t; c_unread_count := c_unread_count c |}.

Definition chat_bump (t : timestamptz) (c : chats_row) : chats_row :=
  {| c_id := c_id c; c_user_id := c_user_id c; c_doctor_id := c_doctor_id c;
     c_is_archived := c_is_archived c; c_is_muted := c_is_muted c;
     c_created_at := c_created_at c; c_updated_at := c_updated_at c;
     c_last_message_at := t; c_unread_count := c_unread_count c + 1 |}.

Definition chat_reset_unread (c : chats_row) : chats_row :=
  {| c_id := c_id c; c_user_id := c_user_id c; c_doctor_id := c_doctor_id c;
     c_is_archived := c_is_archived c; c_is_muted := c_is_muted c;
     c_created_at := c_created_at c; c_updated_at := c_updated_at c;
     c_last_message_at := c_last_message_at c; c_unread_count := 0 |}.

Definition chat_set_archived (b : bool) (c : chats_row) : chats_row :=
  {| c_id := c_id c; c_user_id := c_user_id c; c_doctor_id := c_doctor_id c;
     c_is_archived := b; c_is_muted := c_is_muted c;
     c_created_at := c_created_at c; c_updated_at := c_updated_at c;
     c_last_message_at := c_last_message_at c;
     c_unread_count := c_unread_count c |}.

Definition chat_set_muted (b : bool) (c : chats_row) : chats_row :=
  {| c_id := c_id c; c_user_id := c_user_id c; c_doctor_id := c_doctor_id c;
     c_is_archived := c_is_archived c; c_is_muted := b;
     c_created_at := c_created_at c; c_updated_at := c_updated_at c;
     c_last_message_at := c_last_message_at c;
     c_unread_count := c_unread_count c |}.

Definition group_bump (t : timestamptz) (g : chat_groups_row)
    : chat_groups_row :=
  {| g_id := g_id g; g_name := g_name g; g_description := g_description g;
     g_created_by := g_created_by g; g_avatar_url := g_avatar_url g;
     g_created_at := g_created_at g; g_updated_at := g_updated_at g;
     g_last_message_at := t; g_is_archived := g_is_archived g;
     g_is_muted := g_is_muted g; g_unread_count := g_unread_count g + 1 |}.

Definition group_reset_unread (g : chat_groups_row) : chat_groups_row :=
  {| g_id := g_id g; g_name := g_name g; g_description := g_description g;
     g_created_by := g_created_by g; g_avatar_url := g_avatar_url g;
     g_created_at := g_created_at g; g_updated_at := g_updated_at g;
     g_last_message_at := g_last_message_at g;
     g_is_archived := g_is_archived g; g_is_muted := g_is_muted g;
     g_unread_count := 0 |}.

Definition msg_set_read (m : chat_messages_row) : chat_messages_row :=
  {| m_id := m_id m; m_chat_id := m_chat_id m; m_group_id := m_group_id m;
     m_sender_id := m_sender_id m; m_content := m_content m;
     m_is_read := true; m_created_at := m_created_at m |}.

(** [UPDATE t SET ... WHERE cond]: every row satisfying [cond] is replaced,
    in place. *)
Definition update_where {R : Type} (cond : R -> bool) (f : R -> R)
    (rows : list R) : list R :=
  map (fun r => if cond r then f r else r) rows.

(** *** Triggers on [chat_messages] (AFTER INSERT, FOR EACH ROW) *)

(** [update_chat_timestamp], trigger [on_message_insert]. *)
Definition update_chat_timestamp (NEW : chat_messages_row) (d : Db) : Db :=
  with_chats d
    (update_where (fun c => sql_eq (m_chat_id NEW) (c_id c))
       (chat_set_activity (m_created_at NEW)) (chats d)).

(** [update_chat_on_message], trigger [update_chat_trigger], as replaced by
    the group-chat migration. *)
Definition update_chat_on_message (NEW : chat_messages_row) (d : Db) : Db :=
  match m_chat_id NEW with
  | Some _ =>
      with_chats d
        (update_where (fun c => sql_eq (m_chat_id NEW) (c_id c))
           (chat_bump (m_created_at NEW)) (chats d))
  | None =>
      match m_group_id NEW with
      | Some _ =>
          with_chat_groups d
            (update_where (fun g => sql_eq (m_group_id NEW) (g_id g))
               (group_bump (m_created_at NEW)) (chat_groups d))
      | None => d
      end
  end.

(** Triggers of one event fire in the order of their names. *)
Definition after_insert_chat_messages (NEW : chat_messages_row) (d : Db)
    : Db :=
  update_chat_on_message NEW (update_chat_timestamp NEW d).

(** *** [mark_messages_as_read] *)

(** The two-argument function of the group-chat migration. *)
Definition mark_messages_as_read (p_chat_id p_group_id : option uuid)
    (d : Db) : Db :=
  match p_chat_id with
  | Some cid =>
      let d1 :=
        with_chat_messages d
          (update_where
             (fun m => sql_eq (m_chat_id m) cid && negb (m_is_read m))
             msg_set_read (chat_messages d)) in
      with_chats d1
        (update_where (fun c => String.eqb (c_id c) cid)
           chat_reset_unread (chats d1))
  | None =>
      match p_group_id with
      | Some gid =>
          let d1 :=
            with_chat_messages d
              (update_where
                 (fun m => sql_eq (m_group_id m) gid && negb (m_is_read m))
                 msg_set_read (chat_messages d)) in
          with_chat_groups d1
            (update_where (fun g => String.eqb (g_id g) gid)
               group_reset_unread (chat_groups d1))
      | None => d
      end
  end.

(** The one-argument function of "Add Chat Management Columns"; the later
    two-argument definition is an overload and leaves this one in place. *)
Definition mark_messages_as_read_1 (p_chat_id : uuid) (d : Db) : Db :=
  let d1 :=
    with_chat_messages d
      (update_where
         (fun m => sql_eq (m_chat_id m) p_chat_id && negb (m_is_read m))
         msg_set_read (chat_messages d)) in
  with_chats d1
    (update_where (fun c => String.eqb (c_id c) p_chat_id)
       chat_reset_unread (chats d1)).

End Sql.

(* ================================================================== *)
(** ** Sorting *)

(** [Array.prototype.sort(cmp)]: a stable sort; [cmp a b < 0] puts [a] first,
    [cmp a b > 0] puts [b] first, and elements that compare equal keep their
    relative order. *)
Fixpoint js_insert {A : Type} (cmp : A -> A -> Z) (x : A) (l : list A)
    : list A :=
  match l with
  | [] => [x]
  | y :: l' => if cmp x y <=? 0 then x :: y :: l' else y :: js_insert cmp x l'
  end.

Definition js_sort {A : Type} (cmp : A -> A -> Z) (l : list A) : list A :=
  fold_right (js_insert cmp) [] l.

(** [ORDER BY key DESC]; rows with equal keys come out in table order. *)
Definition order_by_desc {A : Type} (key : A -> Z) (l : list A) : list A :=
  js_sort (fun a b => key b - key a) l.

(** [[...new Set(xs)]]: first occurrences, in order. *)
Fixpoint js_set_from (seen : list string) (xs : list string) : list string :=
  match xs with
  | [] => []
  | x :: xs' =>
      if existsb (String.eqb x) seen then js_set_from seen xs'
      else x :: js_set_from (x :: seen) xs'
  end.

Definition js_set (xs : list string) : list string := js_set_from [] xs.

(* ================================================================== *)
(** ** The backend as the store sees it *)

Module Backend.

Import Sql.

(** What the store reads off a thrown or returned error. *)
Record JsError := { message : string; code : option string }.

Definition Error (msg : string) : JsError :=
  {| message := msg; code := None |}.

Definition PGRST116 : JsError :=
  {| message := "JSON object requested, multiple (or no) rows returned";
     code := Some "PGRST116" |}.

Definition unique_violation : JsError :=
  {| message := "duplicate key value violates unique constraint";
     code := Some "23505" |}.

(** *** Rows with their embedded resources *)

Record other_user_t := {
  ou_full_name : string;
  ou_avatar_url : string;
  ou_specialty : string
}.

(** [messages:chat_messages(content, created_at, is_read)]: the three
    selected columns and nothing else. *)
Record embedded_message := {
  em_content : string;
  em_created_at : timestamptz;
  em_is_read : bool
}.

Record member_t := {
  mb_id : uuid;
  mb_full_name : string;
  mb_avatar_url : string
}.

Record sender_t := {
  sd_full_name : string;
  sd_avatar_url : string
}.

Record direct_chat := {
  dc_row : chats_row;
  dc_other_user : option other_user_t;
  dc_messages : list embedded_message
}.

Record group_chat := {
  gc_row : chat_groups_row;
  gc_members : list (option member_t)
}.

Record message_with_sender := {
  ms_row : chat_messages_row;
  ms_sender : option sender_t
}.

Definition find_profile (d : Db) (pid : uuid) : option profiles_row :=
  find (fun p => String.eqb (p_id p) pid) (profiles d).

Definition embed_other_user (d : Db) (c : chats_row) : option other_user_t :=
  option_map
    (fun p => {| ou_full_name := p_full_name p;
                 ou_avatar_url := p_avatar_url p;
                 ou_specialty := p_specialty p |})
    (find_profile d (c_doctor_id c)).

Definition embed_messages (d : Db) (c : chats_row) : list embedded_message :=
  map (fun m => {| em_content := m_content m;
                   em_created_at := m_created_at m;
                   em_is_read := m_is_read m |})
      (filter (fun m => sql_eq (m_chat_id m) (c_id c)) (chat_messages d)).

Definition embed_members (d : Db) (g : chat_groups_row)
    : list (option member_t) :=
  map (fun gm =>
         option_map
           (fun p => {| mb_id := p_id p; mb_full_name := p_full_name p;
                        mb_avatar_url := p_avatar_url p |})
           (find_profile d (gm_user_id gm)))
      (filter (fun gm => String.eqb (gm_group_id gm) (g_id g))
              (chat_group_members d)).

Definition embed_sender (d : Db) (m : chat_messages_row) : option sender_t :=
  option_map
    (fun p => {| sd_full_name := p_full_name p;
                 sd_avatar_url := p_avatar_url p |})
    (find_profile d (m_sender_id m)).

(** *** Result modifiers *)

(** [.single()] *)
Definition single {R : Type} (rows : list R) : JsError + R :=
  match rows with
  | [r] => inr r
  | _ => inl PGRST116
  end.

(** [.maybeSingle()] *)
Definition maybeSingle {R : Type} (rows : list R) : JsError + option R :=
  match rows with
  | [] => inr None
  | [r] => inr (Some r)
  | _ => inl PGRST116
  end.

(** *** Queries, as functions of the database *)

(** [from('chats').select(..., other_user, messages)
      .or(user_id.eq.uid, doctor_id.eq.uid).order('last_message_at', desc)] *)
Definition select_direct_chats (uid : uuid) (d : Db) : list direct_chat :=
  map (fun c => {| dc_row := c; dc_other_user := embed_other_user d c;
                   dc_messages := embed_messages d c |})
      (order_by_desc c_last_message_at
         (filter (fun c => String.eqb (c_user_id c) uid
                           || String.eqb (c_doctor_id c) uid)
                 (chats d))).

(** [from('chat_groups').select(..., members).order('last_message_at', desc)] *)
Definition select_group_chats (d : Db) : list group_chat :=
  map (fun g => {| gc_row := g; gc_members := embed_members d g |})
      (order_by_desc g_last_message_at (chat_groups d)).

(** [from('chats').select('*').or(user_id.eq.uid, doctor_id.eq.uid)
      .eq(uid === doctorId ? 'user_id' : 'doctor_id', doctorId).single()] *)
Definition select_existing_chat (uid doctorId : uuid) (d : Db)
    : JsError + chats_row :=
  single
    (filter (fun c => (String.eqb (c_user_id c) uid
                       || String.eqb (c_doctor_id c) uid)
                      && (if String.eqb uid doctorId
                          then String.eqb (c_user_id c) doctorId
                          else String.eqb (c_doctor_id c) doctorId))
            (chats d)).

(** [from('chats').insert({user_id, doctor_id}).select().single()]; the
    other columns take their defaults. *)
Definition insert_chat (new_id : uuid) (t : timestamptz)
    (user_id doctor_id : uuid) (d : Db) : (JsError + chats_row) * Db :=
  if existsb (fun c => String.eqb (c_id c) new_id
                       || (String.eqb (c_user_id c) user_id
                           && String.eqb (c_doctor_id c) doctor_id))
             (chats d)
  then (inl unique_violation, d)
  else
    let row := {| c_id := new_id; c_user_id := user_id;
                  c_doctor_id := doctor_id; c_is_archived := false;
                  c_is_muted := false; c_created_at := t; c_updated_at := t;
                  c_last_message_at := t; c_unread_count := 0 |} in
    (inr row, with_chats d (chats d ++ [row])).

(** [from('chat_groups').insert({name, created_by}).select().single()] *)
Definition insert_chat_group (new_id : uuid) (t : timestamptz)
    (name created_by : string) (d : Db) : (JsError + chat_groups_row) * Db :=
  if existsb (fun g => String.eqb (g_id g) new_id) (chat_groups d)
  then (inl unique_violation, d)
  else
    let row := {| g_id := new_id; g_name := name; g_description := None;
                  g_created_by := created_by; g_avatar_url := None;
                  g_created_at := t; g_updated_at := t;
                  g_last_message_at := t; g_is_archived := false;
                  g_is_muted := false; g_unread_count := 0 |} in
    (inr row, with_chat_groups d (chat_groups d ++ [row])).

(** One INSERT statement for all member rows: a key already present, or
    repeated in the statement, rejects the whole statement. *)
Fixpoint insert_member_rows (t : timestamptz)
    (rows : list (uuid * uuid * string))
    (table : list chat_group_members_row)
    : option (list chat_group_members_row) :=
  match rows with
  | [] => Some table
  | (gid, uid, role) :: rest =>
      if existsb (fun gm => String.eqb (gm_group_id gm) gid
                            && String.eqb (gm_user_id gm) uid) table
      then None
      else insert_member_rows t rest
             (table ++ [{| gm_group_id := gid; gm_user_id := uid;
                           gm_role := role; gm_joined_at := t |}])
  end.

Definition insert_chat_group_members (t : timestamptz)
    (rows : list (uuid * uuid * string)) (d : Db) : (JsError + unit) * Db :=
  match insert_member_rows t rows (chat_group_members d) with
  | Some table => (inr tt, with_chat_group_members d table)
  | None => (inl unique_violation, d)
  end.

(** [from('chats').update({is_archived: b}).eq('id', chatId)] *)
Definition update_chat_is_archived (b : bool) (chatId : uuid) (d : Db)
    : (JsError + unit) * Db :=
  (inr tt,
   with_chats d
     (update_where (fun c => String.eqb (c_id c) chatId)
        (chat_set_archived b) (chats d))).

(** [from('chats').update({is_muted: b}).eq('id', chatId)] *)
Definition update_chat_is_muted (b : bool) (chatId : uuid) (d : Db)
    : (JsError + unit) * Db :=
  (inr tt,
   with_chats d
     (update_where (fun c => String.eqb (c_id c) chatId)
        (chat_set_muted b) (chats d))).

(** [from('chats').delete().eq('id', chatId)]; [chat_messages.chat_id] is
    declared ON DELETE CASCADE. *)
Definition delete_chat (chatId : uuid) (d : Db) : (JsError + unit) * Db :=
  (inr tt,
   with_chat_messages
     (with_chats d
        (filter (fun c => negb (String.eqb (c_id c) chatId)) (chats d)))
     (filter (fun m => negb (sql_eq (m_chat_id m) chatId))
             (chat_messages d))).

(** [from('chats').select(..., other_user).eq('id', chatId).maybeSingle()] *)
Definition select_chat_by_id (chatId : uuid) (d : Db)
    : JsError + option direct_chat :=
  maybeSingle
    (map (fun c => {| dc_row := c; dc_other_user := embed_other_user d c;
                      dc_messages := [] |})
         (filter (fun c => String.eqb (c_id c) chatId) (chats d))).

(** [from('chat_groups').select(..., members).eq('id', chatId).maybeSingle()] *)
Definition select_group_by_id (chatId : uuid) (d : Db)
    : JsError + option group_chat :=
  maybeSingle
    (map (fun g => {| gc_row := g; gc_members := embed_members d g |})
         (filter (fun g => String.eqb (g_id g) chatId) (chat_groups d))).

(** [from('chat_messages').select(..., sender)
      .or(chat_id.eq.chatId, group_id.eq.chatId).order('created_at', desc)] *)
Definition select_messages (chatId : uuid) (d : Db)
    : list message_with_sender :=
  map (fun m => {| ms_row := m; ms_sender := embed_sender d m |})
      (order_by_desc m_created_at
         (filter (fun m => sql_eq (m_chat_id m) chatId
                           || sql_eq (m_group_id m) chatId)
                 (chat_messages d))).

(** [from('chat_messages').insert(message).select(..., sender).single()];
    [id] and [created_at] take their defaults, then the triggers fire. *)
Definition insert_chat_message (new_id : uuid) (t : timestamptz)
    (chat_id group_id : option uuid) (sender_id : uuid) (content : string)
    (is_read : bool) (d : Db) : (JsError + message_with_sender) * Db :=
  if existsb (fun m => String.eqb (m_id m) new_id) (chat_messages d)
  then (inl unique_violation, d)
  else
    let row := {| m_id := new_id; m_chat_id := chat_id;
                  m_group_id := group_id; m_sender_id := sender_id;
                  m_content := content; m_is_read := is_read;
                  m_created_at := t |} in
    let d1 := with_chat_messages d (chat_messages d ++ [row]) in
    let d2 := after_insert_chat_messages row d1 in
    (inr {| ms_row := row; ms_sender := embed_sender d2 row |}, d2).

(** [from('profiles').select('full_name, avatar_url').eq('id', pid).single()] *)
Definition select_sender (pid : uuid) (d : Db) : JsError + sender_t :=
  single
    (map (fun p => {| sd_full_name := p_full_name p;
                      sd_avatar_url := p_avatar_url p |})
         (filter (fun p => String.eqb (p_id p) pid) (profiles d))).

(** *** The service: session, transport, id and clock sources, channels *)

(** A realtime channel on INSERTs into [chat_messages] with the filter
    [chat_id=eq.<ch_filter>]. *)
Record Channel := {
  ch_topic : string;
  ch_filter : uuid;
  ch_joined : bool
}.

Record World := {
  db : Db;
  (** [supabase.auth.getUser()]: the id of the signed-in user, or null *)
  session : option uuid;
  (** the transport: one entry is consumed per REST request; [Some e]
      makes that request fail with [e] before it reaches the database *)
  faults : list (option JsError);
  (** [gen_random_uuid()] *)
  uuid_source : nat -> uuid;
  uuid_drawn : nat;
  (** [now()] *)
  clock : timestamptz;
  channels : list Channel
}.

Definition with_db (w : World) (d : Db) : World :=
  {| db := d; session := session w; faults := faults w;
     uuid_source := uuid_source w; uuid_drawn := uuid_drawn w;
     clock := clock w; channels := channels w |}.

Definition with_faults (w : World) (fs : list (option JsError)) : World :=
  {| db := db w; session := session w; faults := fs;
     uuid_source := uuid_source w; uuid_drawn := uuid_drawn w;
     clock := clock w; channels := channels w |}.

Definition with_uuid_drawn (w : World) (n : nat) : World :=
  {| db := db w; session := session w; faults := faults w;
     uuid_source := uuid_source w; uuid_drawn := n;
     clock := clock w; channels := channels w |}.

Definition with_channels (w : World) (cs : list Channel) : World :=
  {| db := db w; session := session w; faults := faults w;
     uuid_source := uuid_source w; uuid_drawn := uuid_drawn w;
     clock := clock w; channels := cs |}.

(** A read request. *)
Definition request_read {A : Type} (q : Db -> JsError + A) (w : World)
    : (JsError + A) * World :=
  match faults w with
  | Some e :: rest => (inl e, with_faults w rest)
  | None :: rest => (q (db w), with_faults w rest)
  | [] => (q (db w), w)
  end.

(** A write request. *)
Definition request_write {A : Type} (q : Db -> (JsError + A) * Db)
    (w : World) : (JsError + A) * World :=
  match faults w with
  | Some e :: rest => (inl e, with_faults w rest)
  | None :: rest =>
      (fst (q (db w)), with_db (with_faults w rest) (snd (q (db w))))
  | [] => (fst (q (db w)), with_db w (snd (q (db w))))
  end.

(** A write request whose new row takes [gen_random_uuid()] and [now()]. *)
Definition request_insert {A : Type}
    (q : uuid -> timestamptz -> Db -> (JsError + A) * Db) (w : World)
    : (JsError + A) * World :=
  match faults w with
  | Some e :: rest => (inl e, with_faults w rest)
  | _ =>
      let w1 := with_faults w (tl (faults w)) in
      let r := q (uuid_source w (uuid_drawn w)) (clock w) (db w) in
      (fst r, with_db (with_uuid_drawn w1 (S (uuid_drawn w))) (snd r))
  end.

(** [supabase.channel('chat_messages').on('postgres_changes', {event:
    'INSERT', table: 'chat_messages', filter: chat_id=eq.chatId}, handler)
    .subscribe()]: the handle is the position of the new channel. *)
Definition channel_subscribe (chatId : uuid) (w : World) : nat * World :=
  (length (channels w),
   with_channels w
     (channels w ++ [{| ch_topic := "chat_messages"; ch_filter := chatId;
                        ch_joined := true |}])).

Fixpoint leave (k : nat) (cs : list Channel) : list Channel :=
  match cs, k with
  | [], _ => []
  | c :: cs', O =>
      {| ch_topic := ch_topic c; ch_filter := ch_filter c;
         ch_joined := false |} :: cs'
  | c :: cs', S k' => c :: leave k' cs'
  end.

(** [subscription.unsubscribe()] *)
Definition channel_unsubscribe (k : nat) (w : World) : World :=
  with_channels w (leave k (channels w)).

(** The change feed hands an inserted row to a channel when the channel is
    joined and the row passes the channel's filter. *)
Definition feed_delivers (ch : Channel) (row : chat_messages_row) : bool :=
  ch_joined ch && sql_eq (m_chat_id row) (ch_filter ch).

Definition joined_channels (w : World) : list Channel :=
  filter ch_joined (channels w).

End Backend.

(* ================================================================== *)
(** ** Client-side values *)

Inductive ChatType := direct | group.

Definition ChatType_eqb (a b : ChatType) : bool :=
  match a, b with
  | direct, direct | group, group => true
  | _, _ => false
  end.

(** [interface Message] *)
Module Message.
Record t := {
  id : uuid;
  chat_id : option uuid;
  group_id : option uuid;
  sender_id : uuid;
  content : string;
  created_at : timestamptz;
  is_read : bool;
  sender : option Backend.sender_t
}.

(** [{ ...row, sender }] *)
Definition of_row (row : Sql.chat_messages_row)
    (sender : option Backend.sender_t) : t :=
  {| id := Sql.m_id row; chat_id := Sql.m_chat_id row;
     group_id := Sql.m_group_id row; sender_id := Sql.m_sender_id row;
     content := Sql.m_content row; created_at := Sql.m_created_at row;
     is_read := Sql.m_is_read row; sender := sender |}.
End Message.

(** [interface Chat].  An absent property is [None]; [type] is absent on
    every object that did not go through the processing step of
    [fetchChats], since neither table has such a column. *)
Module Chat.
Record t := {
  id : uuid;
  type : option ChatType;
  name : option string;
  user_id : option uuid;
  doctor_id : option uuid;
  group_id : option uuid;
  is_archived : bool;
  is_muted : bool;
  created_at : timestamptz;
  updated_at : timestamptz;
  last_message_at : timestamptz;
  last_message : option string;
  unread_count : Z;
  other_user : option Backend.other_user_t;
  members : option (list (option Backend.member_t))
}.

(** [{ ...chat, is_archived: b }] *)
Definition with_is_archived (chat : t) (b : bool) : t :=
  {| id := id chat; type := type chat; name := name chat;
     user_id := user_id chat; doctor_id := doctor_id chat;
     group_id := group_id chat; is_archived := b;
     is_muted := is_muted chat; created_at := created_at chat;
     updated_at := updated_at chat; last_message_at := last_message_at chat;
     last_message := last_message chat; unread_count := unread_count chat;
     other_user := other_user chat; members := members chat |}.

(** [{ ...chat, is_muted: b }] *)
Definition with_is_muted (chat : t) (b : bool) : t :=
  {| id := id chat; type := type chat; name := name chat;
     user_id := user_id chat; doctor_id := doctor_id chat;
     group_id := group_id chat; is_archived := is_archived chat;
     is_muted := b; created_at := created_at chat;
     updated_at := updated_at chat; last_message_at := last_message_at chat;
     last_message := last_message chat; unread_count := unread_count chat;
     other_user := other_user chat; members := members chat |}.

(** A row of [chats] with its [other_user], as an object. *)
Definition of_direct_row (c : Backend.direct_chat) : t :=
  let r := Backend.dc_row c in
  {| id := Sql.c_id r; type := None; name := None;
     user_id := Some (Sql.c_user_id r);
     doctor_id := Some (Sql.c_doctor_id r); group_id := None;
     is_archived := Sql.c_is_archived r; is_muted := Sql.c_is_muted r;
     created_at := Sql.c_created_at r; updated_at := Sql.c_updated_at r;
     last_message_at := Sql.c_last_message_at r; last_message := None;
     unread_count := Sql.c_unread_count r;
     other_user := Backend.dc_other_user c; members := None |}.

(** A row of [chat_groups] with its [members], as an object. *)
Definition of_group_row (g : Backend.group_chat) : t :=
  let r := Backend.gc_row g in
  {| id := Sql.g_id r; type := None; name := Some (Sql.g_name r);
     user_id := None; doctor_id := None; group_id := None;
     is_archived := Sql.g_is_archived r; is_muted := Sql.g_is_muted r;
     created_at := Sql.g_created_at r; updated_at := Sql.g_updated_at r;
     last_message_at := Sql.g_last_message_at r; last_message := None;
     unread_count := Sql.g_unread_count r; other_user := None;
     members := Some (Backend.gc_members g) |}.
End Chat.

(** [m.sender_id] on an embedded message: the embed selects [content],
    [created_at] and [is_read] only, so the property is undefined. *)
Definition em_sender_id (m : Backend.embedded_message) : option uuid := None.

(** [a !== b] for a possibly undefined [a] and a string [b]. *)
Definition js_strict_neq (a : option uuid) (b : uuid) : bool :=
  match a with
  | Some x => negb (String.eqb x b)
  | None => true
  end.

(** [chat.messages?.[0]?.content] *)
Definition first_content (ms : list Backend.embedded_message) : option string :=
  match ms with
  | [] => None
  | m :: _ => Some (Backend.em_content m)
  end.

(** The element of [processedDirectChats] made from one row. *)
Definition processDirectChat (uid : uuid) (chat : Backend.direct_chat)
    : Chat.t :=
  let c := Chat.of_direct_row chat in
  {| Chat.id := Chat.id c; Chat.type := Some direct; Chat.name := Chat.name c;
     Chat.user_id := Chat.user_id c; Chat.doctor_id := Chat.doctor_id c;
     Chat.group_id := Chat.group_id c; Chat.is_archived := Chat.is_archived c;
     Chat.is_muted := Chat.is_muted c; Chat.created_at := Chat.created_at c;
     Chat.updated_at := Chat.updated_at c;
     Chat.last_message_at := Chat.last_message_at c;
     Chat.last_message := first_content (Backend.dc_messages chat);
     Chat.unread_count :=
       Z.of_nat
         (length
            (filter (fun m => negb (Backend.em_is_read m)
                              && js_strict_neq (em_sender_id m) uid)
                    (Backend.dc_messages chat)));
     Chat.other_user := Chat.other_user c; Chat.members := Chat.members c |}.

(** The element of [processedGroupChats] made from one row. *)
Definition processGroupChat (chat : Backend.group_chat) : Chat.t :=
  let c := Chat.of_group_row chat in
  {| Chat.id := Chat.id c; Chat.type := Some group; Chat.name := Chat.name c;
     Chat.user_id := Chat.user_id c; Chat.doctor_id := Chat.doctor_id c;
     Chat.group_id := Chat.group_id c; Chat.is_archived := Chat.is_archived c;
     Chat.is_muted := Chat.is_muted c; Chat.created_at := Chat.created_at c;
     Chat.updated_at := Chat.updated_at c;
     Chat.last_message_at := Chat.last_message_at c;
     Chat.last_message := Chat.last_message c;
     Chat.unread_count := Chat.unread_count c;
     Chat.other_user := Chat.other_user c;
     Chat.members := Some (Backend.gc_members chat) |}.

(** The comparator handed to [sort] in [fetchChats]. *)
Definition by_last_message_at (a b : Chat.t) : Z :=
  Chat.last_message_at b - Chat.last_message_at a.

(** Modelled from the spec: the change-feed event handed to the listener.
    The handler reads the inserted message off the event's [data]
    property. *)
Record Payload := { data : Sql.chat_messages_row }.

(* ================================================================== *)
(** ** The store *)

Module ChatStore.

Import Backend.

(** [{ unsubscribe: () => subscription.unsubscribe() }]: the closure holds
    the channel it was made for. *)
Record Subscription := { channel : nat }.

(** [interface ChatState], the data part. *)
Record ChatState := {
  chats : list Chat.t;
  messages : list Message.t;
  currentChat : option Chat.t;
  isLoading : bool;
  error : option string;
  subscriptions : list Subscription
}.

(** [create<ChatState>((set, get) => ({ chats: [], ... }))] *)
Definition initial : ChatState :=
  {| chats := []; messages := []; currentChat := None; isLoading := false;
     error := None; subscriptions := [] |}.

Definition set_chats (v : list Chat.t) (s : ChatState) : ChatState :=
  {| chats := v; messages := messages s; currentChat := currentChat s;
     isLoading := isLoading s; error := error s;
     subscriptions := subscriptions s |}.

Definition set_messages (v : list Message.t) (s : ChatState) : ChatState :=
  {| chats := chats s; messages := v; currentChat := currentChat s;
     isLoading := isLoading s; error := error s;
     subscriptions := subscriptions s |}.

Definition set_currentChat (v : option Chat.t) (s : ChatState) : ChatState :=
  {| chats := chats s; messages := messages s; currentChat := v;
     isLoading := isLoading s; error := error s;
     subscriptions := subscriptions s |}.

Definition set_isLoading (v : bool) (s : ChatState) : ChatState :=
  {| chats := chats s; messages := messages s; currentChat := currentChat s;
     isLoading := v; error := error s; subscriptions := subscriptions s |}.

Definition set_error (v : option string) (s : ChatState) : ChatState :=
  {| chats := chats s; messages := messages s; currentChat := currentChat s;
     isLoading := isLoading s; error := v;
     subscriptions := subscriptions s |}.

Definition set_subscriptions (v : list Subscription) (s : ChatState)
    : ChatState :=
  {| chats := chats s; messages := messages s; currentChat := currentChat s;
     isLoading := isLoading s; error := error s; subscriptions := v |}.

(** The store together with the service it talks to. *)
Record Sys := { store : ChatState; world : World }.

(** *** Actions: state passing with exceptions *)

Inductive Outcome (A : Type) :=
| Returned (a : A)
| Threw (e : JsError).
Arguments Returned {A} a.
Arguments Threw {A} e.

Definition Async (A : Type) := Sys -> Outcome A * Sys.

Definition ret {A : Type} (a : A) : Async A := fun s => (Returned a, s).

Definition throw {A : Type} (e : JsError) : Async A :=
  fun s => (Threw e, s).

Definition bind {A B : Type} (m : Async A) (k : A -> Async B) : Async B :=
  fun s =>
    match m s with
    | (Returned a, s') => k a s'
    | (Threw e, s') => (Threw e, s')
    end.

(** [try { body } catch (error) { handler }] *)
Definition try_catch {A : Type} (body : Async A) (handler : JsError -> Async A)
    : Async A :=
  fun s =>
    match body s with
    | (Returned a, s') => (Returned a, s')
    | (Threw e, s') => handler e s'
    end.

(** [try { body } finally { final }], for a [final] that does not throw *)
Definition finally {A : Type} (body : Async A) (final : Async unit)
    : Async A :=
  fun s =>
    match body s with
    | (r, s') => (r, snd (final s'))
    end.

Notation "x <- m ;; k" := (bind m (fun x => k))
  (at level 61, m at next level, right associativity).
Notation "m ;;; k" := (bind m (fun _ => k))
  (at level 61, right associativity).

(** [get()] *)
Definition get : Async ChatState := fun s => (Returned (store s), s).

(** [set(state => f state)] *)
Definition set (f : ChatState -> ChatState) : Async unit :=
  fun s => (Returned tt, {| store := f (store s); world := world s |}).

(** [await] on a call into the service *)
Definition await {A : Type} (call : World -> A * World) : Async A :=
  fun s =>
    (Returned (fst (call (world s))),
     {| store := store s; world := snd (call (world s)) |}).

(** [supabase.auth.getUser()] *)
Definition getUser : Async (option uuid) :=
  fun s => (Returned (session (world s)), s).

(** [data] of a response, null on error *)
Definition data_of {A : Type} (r : JsError + A) : option A :=
  match r with
  | inr a => Some a
  | inl _ => None
  end.

(** [xs || []] *)
Definition or_empty {A : Type} (xs : option (list A)) : list A :=
  match xs with
  | Some l => l
  | None => []
  end.

(** [a || b] on possibly null objects *)
Definition or_else {A : Type} (a b : option A) : option A :=
  match a with
  | Some _ => a
  | None => b
  end.

Definition is_some {A : Type} (a : option A) : bool :=
  match a with
  | Some _ => true
  | None => false
  end.

(** [error.code !== c] *)
Definition code_differs (e : JsError) (c : string) : bool :=
  match code e with
  | Some c' => negb (String.eqb c' c)
  | None => true
  end.

(** *** [fetchChats] *)

Definition fetchChats : Async unit :=
  set (fun s => set_error None (set_isLoading true s)) ;;;
  finally
    (try_catch
       (user <- getUser ;;
        match user with
        | None => throw (Error "Not authenticated")
        | Some uid =>
            directChats <-
              await (request_read (fun d => inr (select_direct_chats uid d))) ;;
            groupChats <-
              await (request_read (fun d => inr (select_group_chats d))) ;;
            let processedDirectChats :=
              map (processDirectChat uid) (or_empty (data_of directChats)) in
            let processedGroupChats :=
              map processGroupChat (or_empty (data_of groupChats)) in
            set (set_chats
                   (js_sort by_last_message_at
                      (processedDirectChats ++ processedGroupChats)))
        end)
       (fun error => set (set_error (Some (message error)))))
    (set (set_isLoading false)).

(** *** [startChat] *)

Definition startChat (doctorId : uuid) : Async uuid :=
  try_catch
    (user <- getUser ;;
     match user with
     | None => throw (Error "Not authenticated")
     | Some uid =>
         found <- await (request_read (select_existing_chat uid doctorId)) ;;
         match found with
         | inr existingChat => ret (Sql.c_id existingChat)
         | inl findError =>
             if code_differs findError "PGRST116" then throw findError
             else
               created <-
                 await (request_insert
                          (fun new_id t => insert_chat new_id t uid doctorId)) ;;
               match created with
               | inl createError => throw createError
               | inr newChat =>
                   fetchChats ;;;
                   ret (Sql.c_id newChat)
               end
         end
     end)
    (fun error => set (set_error (Some (message error))) ;;; throw error).

(** *** [createGroupChat] *)

Definition createGroupChat (name : string) (memberIds : list uuid)
    : Async uuid :=
  try_catch
    (user <- getUser ;;
     match user with
     | None => throw (Error "Not authenticated")
     | Some uid =>
         created <-
           await (request_insert
                    (fun new_id t => insert_chat_group new_id t name uid)) ;;
         match created with
         | inl groupError => throw groupError
         | inr group_row =>
             let members := js_set (memberIds ++ [uid]) in
             added <-
               await (fun w =>
                        request_write
                          (insert_chat_group_members (clock w)
                             (map (fun memberId =>
                                     (Sql.g_id group_row, memberId,
                                      if String.eqb memberId uid
                                      then "admin" else "member"))
                                  members))
                          w) ;;
             match added with
             | inl membersError => throw membersError
             | inr _ =>
                 fetchChats ;;;
                 ret (Sql.g_id group_row)
             end
         end
     end)
    (fun error => set (set_error (Some (message error))) ;;; throw error).

(** *** [archiveChat], [unarchiveChat], [muteChat], [unmuteChat],
    [deleteChat] *)

Definition archiveChat (chatId : uuid) : Async unit :=
  try_catch
    (r <- await (request_write (update_chat_is_archived true chatId)) ;;
     match r with
     | inl error => throw error
     | inr _ =>
         set (fun state =>
                set_chats
                  (map (fun chat =>
                          if String.eqb (Chat.id chat) chatId
                          then Chat.with_is_archived chat true else chat)
                       (chats state))
                  state)
     end)
    (fun error => set (set_error (Some (message error)))).

Definition unarchiveChat (chatId : uuid) : Async unit :=
  try_catch
    (r <- await (request_write (update_chat_is_archived false chatId)) ;;
     match r with
     | inl error => throw error
     | inr _ =>
         set (fun state =>
                set_chats
                  (map (fun chat =>
                          if String.eqb (Chat.id chat) chatId
                          then Chat.with_is_archived chat false else chat)
                       (chats state))
                  state)
     end)
    (fun error => set (set_error (Some (message error)))).

Definition muteChat (chatId : uuid) : Async unit :=
  try_catch
    (r <- await (request_write (update_chat_is_muted true chatId)) ;;
     match r with
     | inl error => throw error
     | inr _ =>
         set (fun state =>
                set_chats
                  (map (fun chat =>
                          if String.eqb (Chat.id chat) chatId
                          then Chat.with_is_muted chat true else chat)
                       (chats state))
                  state)
     end)
    (fun error => set (set_error (Some (message error)))).

Definition unmuteChat (chatId : uuid) : Async unit :=
  try_catch
    (r <- await (request_write (update_chat_is_muted false chatId)) ;;
     match r with
     | inl error => throw error
     | inr _ =>
         set (fun state =>
                set_chats
                  (map (fun chat =>
                          if String.eqb (Chat.id chat) chatId
                          then Chat.with_is_muted chat false else chat)
                       (chats state))
                  state)
     end)
    (fun error => set (set_error (Some (message error)))).

Definition deleteChat (chatId : uuid) : Async unit :=
  try_catch
    (r <- await (request_write (delete_chat chatId)) ;;
     match r with
     | inl error => throw error
     | inr _ =>
         set (fun state =>
                set_chats
                  (filter (fun chat => negb (String.eqb (Chat.id chat) chatId))
                          (chats state))
                  state)
     end)
    (fun error => set (set_error (Some (message error)))).

(** *** [fetchMessages] *)

(** [supabase.rpc('mark_messages_as_read', { p_chat_id, p_group_id })] *)
Definition rpc_mark_messages_as_read (p_chat_id p_group_id : option uuid)
    : World -> (JsError + unit) * World :=
  request_write
    (fun d => (inr tt, Sql.mark_messages_as_read p_chat_id p_group_id d)).

(** [supabase.rpc('mark_messages_as_read', { p_chat_id })] *)
Definition rpc_mark_messages_as_read_1 (p_chat_id : uuid)
    : World -> (JsError + unit) * World :=
  request_write
    (fun d => (inr tt, Sql.mark_messages_as_read_1 p_chat_id d)).

(** [data] of a [maybeSingle] response *)
Definition row_of {A : Type} (r : JsError + option A) : option A :=
  match r with
  | inr (Some a) => Some a
  | _ => None
  end.

Definition fetchMessages (chatId : uuid) : Async unit :=
  set (fun s => set_error None (set_isLoading true s)) ;;;
  finally
    (try_catch
       (user <- getUser ;;
        match user with
        | None => throw (Error "Not authenticated")
        | Some _ =>
            direct_r <- await (request_read (select_chat_by_id chatId)) ;;
            group_r <- await (request_read (select_group_by_id chatId)) ;;
            let directChat := row_of direct_r in
            let groupChat := row_of group_r in
            match or_else (option_map Chat.of_direct_row directChat)
                          (option_map Chat.of_group_row groupChat) with
            | None => throw (Error "Chat not found")
            | Some chat =>
                set (set_currentChat (Some chat)) ;;;
                fetched <-
                  await (request_read
                           (fun d => inr (select_messages chatId d))) ;;
                match fetched with
                | inl messagesError => throw messagesError
                | inr rows =>
                    set (set_messages
                           (map (fun r => Message.of_row (ms_row r)
                                                         (ms_sender r))
                                rows)) ;;;
                    await (rpc_mark_messages_as_read
                             (if is_some directChat then Some chatId
                              else None)
                             (if is_some groupChat then Some chatId
                              else None)) ;;;
                    fetchChats
                end
            end
        end)
       (fun error => set (set_error (Some (message error)))))
    (set (set_isLoading false)).

(** *** [sendMessage] *)

Definition sendMessage (content : string) : Async unit :=
  try_catch
    (s <- get ;;
     match currentChat s with
     | None => throw (Error "No active chat")
     | Some currentChat =>
         user <- getUser ;;
         match user with
         | None => throw (Error "Not authenticated")
         | Some uid =>
             let chat_id :=
               match Chat.type currentChat with
               | Some direct => Some (Chat.id currentChat)
               | _ => None
               end in
             let group_id :=
               match Chat.type currentChat with
               | Some group => Some (Chat.id currentChat)
               | _ => None
               end in
             r <- await (request_insert
                           (fun new_id t =>
                              insert_chat_message new_id t chat_id group_id
                                uid content false)) ;;
             match r with
             | inl error => throw error
             | inr data =>
                 set (fun state =>
                        set_messages
                          (Message.of_row (ms_row data) (ms_sender data)
                           :: messages state)
                          state) ;;;
                 fetchChats
             end
         end
     end)
    (fun error => set (set_error (Some (message error)))).

(** *** [subscribeToMessages], [cleanup] *)

(** [subscriptions.forEach(sub => sub.unsubscribe())] *)
Definition unsubscribe_all (subs : list Subscription) (w : World) : World :=
  fold_left (fun w' sub => channel_unsubscribe (channel sub) w') subs w.

(** The listener registered by [subscribeToMessages chatId]. *)
Definition on_insert (chatId : uuid) (payload : Payload) : Async unit :=
  let message := data payload in
  sender_r <- await (request_read (select_sender (Sql.m_sender_id message))) ;;
  let sender := data_of sender_r in
  set (fun state =>
         set_messages (Message.of_row message sender :: messages state)
                      state) ;;;
  user <- getUser ;;
  (match user with
   | Some uid =>
       if negb (String.eqb (Sql.m_sender_id message) uid)
       then await (rpc_mark_messages_as_read_1 chatId) ;;; ret tt
       else ret tt
   | None => ret tt
   end) ;;;
  fetchChats.

Definition subscribeToMessages (chatId : uuid) : Async unit :=
  s <- get ;;
  await (fun w => (tt, unsubscribe_all (subscriptions s) w)) ;;;
  subscription <- await (channel_subscribe chatId) ;;
  set (set_subscriptions [{| channel := subscription |}]).

Definition cleanup : Async unit :=
  s <- get ;;
  await (fun w => (tt, unsubscribe_all (subscriptions s) w)) ;;;
  set (fun s =>
         set_messages [] (set_currentChat None (set_subscriptions [] s))).

(** *** The change feed *)

(** An INSERT of [row] reaches the listener of every channel the feed
    delivers it to, in the order the channels were opened. *)
Fixpoint deliver_to (chs : list Channel) (row : Sql.chat_messages_row)
    : Async unit :=
  match chs with
  | [] => ret tt
  | ch :: chs' =>
      (if feed_delivers ch row
       then on_insert (ch_filter ch) {| data := row |}
       else ret tt) ;;;
      deliver_to chs' row
  end.

Definition realtime_insert (row : Sql.chat_messages_row) : Async unit :=
  fun s => deliver_to (channels (world s)) row s.

(** *** Runs of the store *)

Inductive Action :=
| FetchChats
| StartChat (doctorId : uuid)
| CreateGroupChat (name : string) (memberIds : list uuid)
| ArchiveChat (chatId : uuid)
| UnarchiveChat (chatId : uuid)
| MuteChat (chatId : uuid)
| UnmuteChat (chatId : uuid)
| DeleteChat (chatId : uuid)
| FetchMessages (chatId : uuid)
| SendMessage (content : string)
| SubscribeToMessages (chatId : uuid)
| Cleanup
| RealtimeInsert (row : Sql.chat_messages_row)
| Elsewhere (d : Sql.Db) (user : option uuid)
    (transport : list (option JsError)) (t : timestamptz).

Definition discard {A : Type} (m : Async A) : Sys -> Sys :=
  fun s => snd (m s).

(** What happens outside this client between two of its actions: other
    clients write, the user signs in or out, the network state changes,
    time passes.  The client's own channels stay as they are. *)
Definition elsewhere (d : Sql.Db) (user : option uuid)
    (transport : list (option JsError)) (t : timestamptz) (s : Sys) : Sys :=
  {| store := store s;
     world := {| db := d; session := user; faults := transport;
                 uuid_source := uuid_source (world s);
                 uuid_drawn := uuid_drawn (world s);
                 clock := t; channels := channels (world s) |} |}.

Definition step (a : Action) : Sys -> Sys :=
  match a with
  | FetchChats => discard fetchChats
  | StartChat doctorId => discard (startChat doctorId)
  | CreateGroupChat name memberIds => discard (createGroupChat name memberIds)
  | ArchiveChat chatId => discard (archiveChat chatId)
  | UnarchiveChat chatId => discard (unarchiveChat chatId)
  | MuteChat chatId => discard (muteChat chatId)
  | UnmuteChat chatId => discard (unmuteChat chatId)
  | DeleteChat chatId => discard (deleteChat chatId)
  | FetchMessages chatId => discard (fetchMessages chatId)
  | SendMessage content => discard (sendMessage content)
  | SubscribeToMessages chatId => discard (subscribeToMessages chatId)
  | Cleanup => discard cleanup
  | RealtimeInsert row => discard (realtime_insert row)
  | Elsewhere d user transport t => elsewhere d user transport t
  end.

Definition run (acts : list Action) (s : Sys) : Sys :=
  fold_left (fun s' a => step a s') acts s.

(** The store as created at module load, against a service on which this
    client has opened no channel yet. *)
Definition boot (w : World) : Sys :=
  {| store := initial; world := with_channels w [] |}.

End ChatStore.

(* ================================================================== *)
(** ** Properties the claims are measured against *)

(** The unread counter as the data model defines it: the messages of a
    direct conversation whose sender is not the viewer and whose read flag
    is false. *)
Definition unread_for (viewer cid : uuid) (d : Sql.Db) : Z :=
  Z.of_nat
    (length
       (filter (fun m => sql_eq (Sql.m_chat_id m) cid
                         && negb (String.eqb (Sql.m_sender_id m) viewer)
                         && negb (Sql.m_is_read m))
               (Sql.chat_messages d))).





(** A listing in descending order of last activity: no entry is followed,
    at any distance, by one with a later timestamp. *)
Definition descending (l : list Chat.t) : Prop :=
  StronglySorted
    (fun a b => Chat.last_message_at a >= Chat.last_message_at b) l.

(** Entries that share a timestamp appear in [after] in the order they have
    in [before]. *)
Definition ties_keep_order (before after : list Chat.t) : Prop :=
  forall t,
    filter (fun c => Chat.last_message_at c =? t) after =
    filter (fun c => Chat.last_message_at c =? t) before.

(** An action that ends with the store reporting "Not authenticated" and
    the service exactly as it was. *)
Definition fails_unauthenticated (a : ChatStore.Action) (s : ChatStore.Sys)
    : Prop :=
  ChatStore.error (ChatStore.store (ChatStore.step a s))
    = Some "Not authenticated"
  /\ ChatStore.world (ChatStore.step a s) = ChatStore.world s.

(** The failure the next REST request meets in transit, if any. *)
Definition next_fault (w : Backend.World) : option Backend.JsError :=
  match Backend.faults w with
  | Some e :: _ => Some e
  | _ => None
  end.

(** Two directory entries that agree on everything but [is_archived]. *)
Definition same_but_archived (c c' : Chat.t) : Prop :=
  Chat.with_is_archived c' (Chat.is_archived c) = c.

(** Two directory entries that agree on everything but [is_muted]. *)
Definition same_but_muted (c c' : Chat.t) : Prop :=
  Chat.with_is_muted c' (Chat.is_muted c) = c.

(** [after] is [before] with the entries named [chatId] related by [R] and
    every other entry untouched, position by position. *)
Definition patched (chatId : uuid) (R : Chat.t -> Chat.t -> Prop)
    (before after : list Chat.t) : Prop :=
  Forall2 (fun c c' => if String.eqb (Chat.id c) chatId then R c c' else c' = c)
          before after.

(** Everything in the store but the directory list is the same. *)
Definition rest_of_store_same (st st' : ChatStore.ChatState) : Prop :=
  ChatStore.messages st' = ChatStore.messages st
  /\ ChatStore.currentChat st' = ChatStore.currentChat st
  /\ ChatStore.isLoading st' = ChatStore.isLoading st
  /\ ChatStore.error st' = ChatStore.error st
  /\ ChatStore.subscriptions st' = ChatStore.subscriptions st.

(** The positions of the joined channels. *)
Fixpoint joined_at (k : nat) (chs : list Backend.Channel) : list nat :=
  match chs with
  | [] => []
  | c :: chs' =>
      if Backend.ch_joined c then k :: joined_at (S k) chs'
      else joined_at (S k) chs'
  end.

(** Every joined channel is held by the store, and the store holds at most
    one. *)
Definition one_subscription (s : ChatStore.Sys) : Prop :=
  joined_at 0 (Backend.channels (ChatStore.world s))
    = map ChatStore.channel (ChatStore.subscriptions (ChatStore.store s))
  /\ (length (ChatStore.subscriptions (ChatStore.store s)) <= 1)%nat.

(** How a single-request action settles: when the request fails in
    transit, the store is as before but for the error message; when it goes
    through, [on_success] relates the store before and after. *)
Definition settles (s : ChatStore.Sys) (a : ChatStore.Action)
    (on_success : ChatStore.ChatState -> ChatStore.ChatState -> Prop) : Prop :=
  match next_fault (ChatStore.world s) with
  | Some e =>
      ChatStore.store (ChatStore.step a s)
      = ChatStore.set_error (Some (Backend.message e)) (ChatStore.store s)
  | None => on_success (ChatStore.store s) (ChatStore.store (ChatStore.step a s))
  end.

(** [s] with another answer from [supabase.auth.getUser()]. *)
Definition signed_in_as (user : option uuid) (s : ChatStore.Sys)
    : ChatStore.Sys :=
  ChatStore.elsewhere (Backend.db (ChatStore.world s)) user
    (Backend.faults (ChatStore.world s)) (Backend.clock (ChatStore.world s)) s.

(** An action whose effect on the store and on the database is the same
    whoever is signed in, or nobody. *)
Definition ignores_session (a : ChatStore.Action) (s : ChatStore.Sys) : Prop :=
  forall user,
    ChatStore.store (ChatStore.step a (signed_in_as user s))
    = ChatStore.store (ChatStore.step a s)
    /\ Backend.db (ChatStore.world (ChatStore.step a (signed_in_as user s)))
       = Backend.db (ChatStore.world (ChatStore.step a s)).

(** An action that leaves the channels of the service and the
    subscriptions of the store as they are. *)
Definition keeps_subscription {A : Type} (m : ChatStore.Async A) : Prop :=
  forall s,
    Backend.channels (ChatStore.world (snd (m s)))
    = Backend.channels (ChatStore.world s)
    /\ ChatStore.subscriptions (ChatStore.store (snd (m s)))
       = ChatStore.subscriptions (ChatStore.store s).

(** The actions other than attaching and detaching the listener. *)
Definition keeps_listener (a : ChatStore.Action) : bool :=
  match a with
  | ChatStore.SubscribeToMessages _ | ChatStore.Cleanup => false
  | _ => true
  end.

(** The channel [subscribeToMessages chatId] opens. *)
Definition channel_on (chatId : uuid) : Backend.Channel :=
  {| Backend.ch_topic := "chat_messages"; Backend.ch_filter := chatId;
     Backend.ch_joined := true |}.

(** The unread counter of the data model for a group conversation. *)
Definition unread_for_group (viewer gid : uuid) (d : Sql.Db) : Z :=
  Z.of_nat
    (length
       (filter (fun m => sql_eq (Sql.m_group_id m) gid
                         && negb (String.eqb (Sql.m_sender_id m) viewer)
                         && negb (Sql.m_is_read m))
               (Sql.chat_messages d))).

(** The event left the timeline and the unread counters of the direct
    conversations as they were. *)
Definition not_applied (s s' : ChatStore.Sys) : Prop :=
  ChatStore.messages (ChatStore.store s')
  = ChatStore.messages (ChatStore.store s)
  /\ map Sql.c_unread_count (Sql.chats (Backend.db (ChatStore.world s')))
     = map Sql.c_unread_count (Sql.chats (Backend.db (ChatStore.world s))).


(** *** Concrete data for the worked cases *)

Definition no_rows : Sql.Db :=
  {| Sql.profiles := []; Sql.chats := []; Sql.chat_groups := [];
     Sql.chat_group_members := []; Sql.chat_messages := [] |}.

Definition uuids (n : nat) : uuid :=
  String.append "id-" (DecimalString.NilEmpty.string_of_uint (Nat.to_uint n)).

(** A direct conversation "X" between "A" (who opened it) and "B". *)
Definition chat_X : Sql.chats_row :=
  {| Sql.c_id := "X"; Sql.c_user_id := "A"; Sql.c_doctor_id := "B";
     Sql.c_is_archived := false; Sql.c_is_muted := false;
     Sql.c_created_at := 10; Sql.c_updated_at := 10;
     Sql.c_last_message_at := 10; Sql.c_unread_count := 0 |}.

(** An unread message of "A" in "X". *)
Definition own_message : Sql.chat_messages_row :=
  {| Sql.m_id := "m1"; Sql.m_chat_id := Some "X"; Sql.m_group_id := None;
     Sql.m_sender_id := "A"; Sql.m_content := "hello"; Sql.m_is_read := false;
     Sql.m_created_at := 20 |}.

(** An unread message of "B" in another conversation "Y". *)
Definition foreign_message : Sql.chat_messages_row :=
  {| Sql.m_id := "m2"; Sql.m_chat_id := Some "Y"; Sql.m_group_id := None;
     Sql.m_sender_id := "B"; Sql.m_content := "elsewhere";
     Sql.m_is_read := false; Sql.m_created_at := 30 |}.

Definition db_own_unread : Sql.Db :=
  {| Sql.profiles := [];
     Sql.chats :=
       [{| Sql.c_id := "X"; Sql.c_user_id := "A"; Sql.c_doctor_id := "B";
           Sql.c_is_archived := false; Sql.c_is_muted := false;
           Sql.c_created_at := 10; Sql.c_updated_at := 20;
           Sql.c_last_message_at := 20; Sql.c_unread_count := 1 |}];
     Sql.chat_groups := []; Sql.chat_group_members := [];
     Sql.chat_messages := [own_message] |}.

(** A group "G" created by "A", with "A" and "B" as members and no message
    yet. *)
Definition db_group : Sql.Db :=
  {| Sql.profiles := []; Sql.chats := [];
     Sql.chat_groups :=
       [{| Sql.g_id := "G"; Sql.g_name := "ward"; Sql.g_description := None;
           Sql.g_created_by := "A"; Sql.g_avatar_url := None;
           Sql.g_created_at := 10; Sql.g_updated_at := 10;
           Sql.g_last_message_at := 10; Sql.g_is_archived := false;
           Sql.g_is_muted := false; Sql.g_unread_count := 0 |}];
     Sql.chat_group_members :=
       [{| Sql.gm_group_id := "G"; Sql.gm_user_id := "A";
           Sql.gm_role := "admin"; Sql.gm_joined_at := 10 |};
        {| Sql.gm_group_id := "G"; Sql.gm_user_id := "B";
           Sql.gm_role := "member"; Sql.gm_joined_at := 10 |}];
     Sql.chat_messages := [] |}.

(** [db_group] after "A" has posted one message to "G". *)
Definition db_group_own_unread : Sql.Db :=
  snd (Backend.insert_chat_message "m3" 50 None (Some "G") "A" "rounds at 8"
         false db_group).

Definition service (d : Sql.Db) (user : option uuid) : Backend.World :=
  {| Backend.db := d; Backend.session := user; Backend.faults := [];
     Backend.uuid_source := uuids; Backend.uuid_drawn := 0;
     Backend.clock := 100; Backend.channels := [] |}.

(** "X" as a directory entry of type [direct]. *)
Definition entry_X : Chat.t :=
  processDirectChat "A"
    {| Backend.dc_row := chat_X; Backend.dc_other_user := None;
       Backend.dc_messages := [] |}.

(** "X" as [fetchMessages] makes it the open conversation: the row of
    [chats] with its [other_user], which has no [type]. *)
Definition opened_X : Chat.t :=
  Chat.of_direct_row
    {| Backend.dc_row := chat_X; Backend.dc_other_user := None;
       Backend.dc_messages := [] |}.

(** "A" has listed the conversations, opened "X" and listens on it. *)
Definition open_on_X : ChatStore.Sys :=
  {| ChatStore.store :=
       {| ChatStore.chats := [entry_X]; ChatStore.messages := [];
          ChatStore.currentChat := Some opened_X;
          ChatStore.isLoading := false; ChatStore.error := None;
          ChatStore.subscriptions := [{| ChatStore.channel := 0%nat |}] |};
     ChatStore.world :=
       {| Backend.db := Sql.with_chats no_rows [chat_X];
          Backend.session := Some "A"; Backend.faults := [];
          Backend.uuid_source := uuids; Backend.uuid_drawn := 0;
          Backend.clock := 100;
          Backend.channels :=
            [{| Backend.ch_topic := "chat_messages";
                Backend.ch_filter := "X"; Backend.ch_joined := true |}] |} |}.

(** [open_on_X] over a database in which "X" holds one unread message. *)
Definition open_on_X_unread : ChatStore.Sys :=
  ChatStore.elsewhere db_own_unread (Some "A") [] 100 open_on_X.

(* ================================================================== *)
(** ** The chat list screen *)

Module ChatList.

Import ChatStore.

(** [handleArchive(chatId, isArchived)]: the swipe action of a row, called
    with the row's id and current flag.  The catch branch only raises an
    alert. *)
Definition handleArchive (chatId : uuid) (isArchived : bool) : Async unit :=
  try_catch
    (if isArchived then unarchiveChat chatId else archiveChat chatId)
    (fun _ => ret tt).

(** [handleMute(chatId, isMuted)] *)
Definition handleMute (chatId : uuid) (isMuted : bool) : Async unit :=
  try_catch
    (if isMuted then unmuteChat chatId else muteChat chatId)
    (fun _ => ret tt).

End ChatList.

(* ================================================================== *)
(** ** Further properties of the store and of the database *)




(** The open conversation, if any, carries no [type]. *)
Definition current_chat_untyped (st : ChatStore.ChatState) : Prop :=
  forall c, ChatStore.currentChat st = Some c -> Chat.type c = None.

(** An action that keeps a property of the store. *)
Definition preserves {A : Type} (P : ChatStore.ChatState -> Prop)
    (m : ChatStore.Async A) : Prop :=
  forall s,
    P (ChatStore.store s) -> P (ChatStore.store (snd (m s))).

(** The chats table respects [UNIQUE(user_id, doctor_id)]. *)
Definition pairs_unique (d : Sql.Db) : Prop :=
  NoDup (map (fun c => (Sql.c_user_id c, Sql.c_doctor_id c)) (Sql.chats d)).


(** The group row [createGroupChat] asks for. *)
Definition group_row (gid : uuid) (name : string) (creator : uuid)
    (t : timestamptz) : Sql.chat_groups_row :=
  {| Sql.g_id := gid; Sql.g_name := name; Sql.g_description := None;
     Sql.g_created_by := creator; Sql.g_avatar_url := None;
     Sql.g_created_at := t; Sql.g_updated_at := t;
     Sql.g_last_message_at := t; Sql.g_is_archived := false;
     Sql.g_is_muted := false; Sql.g_unread_count := 0 |}.


(** The directory entries of one type. *)
Definition is_typed (t : ChatType) (c : Chat.t) : bool :=
  match Chat.type c with
  | Some t' => ChatType_eqb t' t
  | None => false
  end.

(** What a row of the chat list shows of a direct conversation. *)
Definition shown_of_entry (c : Chat.t) : uuid * bool * bool * timestamptz :=
  (Chat.id c, Chat.is_archived c, Chat.is_muted c, Chat.last_message_at c).

Definition shown_of_row (r : Sql.chats_row) : uuid * bool * bool * timestamptz :=
  (Sql.c_id r, Sql.c_is_archived r, Sql.c_is_muted r, Sql.c_last_message_at r).

(** The viewer is the user or the doctor of the chat. *)
Definition takes_part (uid : uuid) (r : Sql.chats_row) : bool :=
  String.eqb (Sql.c_user_id r) uid || String.eqb (Sql.c_doctor_id r) uid.

(** The five actions on one directory entry. *)
Definition entry_actions (chatId : uuid) : list ChatStore.Action :=
  [ChatStore.ArchiveChat chatId; ChatStore.UnarchiveChat chatId;
   ChatStore.MuteChat chatId; ChatStore.UnmuteChat chatId;
   ChatStore.DeleteChat chatId].

(** *** Further concrete data *)

(** A database with the one conversation "X" and no message. *)
Definition db_X : Sql.Db := Sql.with_chats no_rows [chat_X].

(** "A" is signed in; the next request succeeds and the one after it is
    lost in transit. *)
Definition second_request_lost : ChatStore.Sys :=
  ChatStore.elsewhere no_rows (Some "A")
    [None; Some (Backend.Error "Network request failed")] 100
    (ChatStore.boot (service no_rows (Some "A"))).

(** "A" is signed in and the next two requests are lost in transit; the
    store holds a directory fetched earlier. *)
Definition reads_lost : ChatStore.Sys :=
  ChatStore.elsewhere db_X (Some "A")
    [Some (Backend.Error "Network request failed");
     Some (Backend.Error "Network request failed")] 100
    open_on_X.

(* ================================================================== *)
(** ** The SQL functions *)

Section MarkAsRead.

Import Sql.









End MarkAsRead.

Section MarkAsReadClaims.

Import Sql.







End MarkAsReadClaims.

(* ================================================================== *)
(** ** Sorting *)

Section SortByKey.

Variable A : Type.
Variable key : A -> Z.

Let cmp (a b : A) : Z := key b - key a.
Let ge_key (a b : A) : Prop := key a >= key b.

Lemma js_insert_perm (x : A) (l : list A) :
  Permutation (js_insert cmp x l) (x :: l).
Proof.
  induction l as [|y l IH]; simpl; [reflexivity|].
  destruct (cmp x y <=? 0); [reflexivity|].
  rewrite IH. apply perm_swap.
Qed.

Lemma js_sort_perm (l : list A) : Permutation (js_sort cmp l) l.
Proof.
  induction l as [|x l IH]; simpl; [reflexivity|].
  rewrite js_insert_perm. now apply perm_skip.
Qed.

Lemma js_insert_sorted (x : A) (l : list A) :
  StronglySorted ge_key l -> StronglySorted ge_key (js_insert cmp x l).
Proof.
  induction 1 as [|y l Hs IH Hy]; simpl.
  - repeat constructor.
  - destruct (cmp x y <=? 0) eqn:E.
    + apply Z.leb_le in E. constructor; [now constructor|].
      constructor; [unfold ge_key, cmp in *; lia|].
      eapply Forall_impl; [|exact Hy].
      intros a Ha. unfold ge_key, cmp in *. lia.
    + apply Z.leb_gt in E. constructor; [exact IH|].
      eapply Permutation_Forall.
      * symmetry. apply js_insert_perm.
      * constructor; [unfold ge_key, cmp in *; lia | exact Hy].
Qed.

Lemma js_sort_sorted (l : list A) : StronglySorted ge_key (js_sort cmp l).
Proof.
  induction l as [|x l IH]; simpl; [constructor|].
  now apply js_insert_sorted.
Qed.

Lemma js_insert_stable (t : Z) (x : A) (l : list A) :
  filter (fun a => key a =? t) (js_insert cmp x l)
  = filter (fun a => key a =? t) (x :: l).
Proof.
  induction l as [|y l IH]; [reflexivity|].
  simpl js_insert. destruct (cmp x y <=? 0) eqn:E; [reflexivity|].
  apply Z.leb_gt in E. unfold cmp in E.
  simpl in *. rewrite IH.
  destruct (key x =? t) eqn:Ex; [|reflexivity].
  apply Z.eqb_eq in Ex.
  destruct (key y =? t) eqn:Ey; [|reflexivity].
  apply Z.eqb_eq in Ey. lia.
Qed.

Lemma js_sort_stable (t : Z) (l : list A) :
  filter (fun a => key a =? t) (js_sort cmp l)
  = filter (fun a => key a =? t) l.
Proof.
  induction l as [|x l IH]; [reflexivity|].
  simpl js_sort. rewrite js_insert_stable. simpl. now rewrite IH.
Qed.

(** Sorting a list that is already in order gives it back. *)
Lemma js_insert_head (x : A) (l : list A) :
  Forall (ge_key x) l -> js_insert cmp x l = x :: l.
Proof.
  destruct 1 as [|y l Hy _]; [reflexivity|].
  simpl. unfold ge_key, cmp in *.
  destruct (key y - key x <=? 0) eqn:E; [reflexivity|].
  apply Z.leb_gt in E. lia.
Qed.

Lemma js_sort_fixed (l : list A) :
  StronglySorted ge_key l -> js_sort cmp l = l.
Proof.
  induction 1 as [|x l Hs IH Hx]; [reflexivity|].
  simpl. rewrite IH. now apply js_insert_head.
Qed.

End SortByKey.

(* ================================================================== *)
(** ** The conversation directory *)

Section Directory.

Import Backend ChatStore.

(** What [fetchChats] leaves behind for a signed-in user when both reads
    go through. *)
Lemma fetchChats_listing (s : Sys) (uid : uuid) :
  session (world s) = Some uid ->
  faults (world s) = [] ->
  snd (fetchChats s)
  = {| store :=
         set_isLoading false
           (set_chats
              (js_sort by_last_message_at
                 (map (processDirectChat uid)
                      (select_direct_chats uid (db (world s)))
                  ++ map processGroupChat (select_group_chats (db (world s)))))
              (set_error None (set_isLoading true (store s))));
       world := world s |}.
Proof.
  intros Hu Hf.
  unfold fetchChats, finally, try_catch, bind, set, getUser, await,
    request_read.
  simpl. rewrite Hu. simpl. rewrite !Hf. simpl. rewrite !Hf. reflexivity.
Qed.

(** C5: for a signed-in viewer whose requests go through, the listing is
    one sequence holding the processed direct conversations and the
    processed group conversations together; it is in descending order of
    last activity; conversations with the same timestamp keep the order
    they have in the concatenation direct-then-group; and listing again
    over the same data gives the same sequence. *)
Theorem C5_listing_merged_descending_stable (s : Sys) (uid : uuid) :
  session (world s) = Some uid ->
  faults (world s) = [] ->
  let directs :=
    map (processDirectChat uid) (select_direct_chats uid (db (world s))) in
  let groups := map processGroupChat (select_group_chats (db (world s))) in
  let listing := chats (store (step FetchChats s)) in
  Permutation listing (directs ++ groups)
  /\ descending listing
  /\ ties_keep_order (directs ++ groups) listing
  /\ chats (store (run [FetchChats; FetchChats] s)) = listing.
Proof.
  intros Hu Hf directs groups listing.
  assert (Hl : listing = js_sort by_last_message_at (directs ++ groups)).
  { unfold listing, step, discard. now rewrite (fetchChats_listing s Hu Hf). }
  repeat split.
  - rewrite Hl. apply (js_sort_perm Chat.last_message_at).
  - rewrite Hl. apply (js_sort_sorted Chat.last_message_at).
  - intros t. rewrite Hl. apply (js_sort_stable Chat.last_message_at).
  - rewrite Hl. unfold run. simpl fold_left. unfold step, discard.
    rewrite (fetchChats_listing s Hu Hf).
    rewrite (@fetchChats_listing _ uid); [reflexivity | exact Hu | exact Hf].
Qed.

(** A signed-in "A" lists a chat and a group that were last active at the
    same instant: the chat comes first, on every call. *)
Lemma C5_witness :
  let s := boot (service (Sql.with_chats db_group [chat_X]) (Some "A")) in
  Permutation (chats (store (step FetchChats s)))
    (map (processDirectChat "A")
         (select_direct_chats "A" (db (world s)))
     ++ map processGroupChat (select_group_chats (db (world s))))
  /\ descending (chats (store (step FetchChats s)))
  /\ ties_keep_order
       (map (processDirectChat "A")
            (select_direct_chats "A" (db (world s)))
        ++ map processGroupChat (select_group_chats (db (world s))))
       (chats (store (step FetchChats s)))
  /\ chats (store (run [FetchChats; FetchChats] s))
     = chats (store (step FetchChats s)).
Proof.
  exact (@C5_listing_merged_descending_stable
           (boot (service (Sql.with_chats db_group [chat_X]) (Some "A")))
           "A" eq_refl eq_refl).
Defined.

End Directory.

(* ================================================================== *)
(** ** Archive, mute, delete *)

Section Toggles.

Import Backend ChatStore.

Lemma patched_map (chatId : uuid) (R : Chat.t -> Chat.t -> Prop)
    (f : Chat.t -> Chat.t) (l : list Chat.t) :
  (forall c, R c (f c)) ->
  patched chatId R l
    (map (fun c => if String.eqb (Chat.id c) chatId then f c else c) l).
Proof.
  intros HR. unfold patched.
  induction l as [|c l IH]; simpl; constructor; [|exact IH].
  destruct (String.eqb (Chat.id c) chatId); [apply HR | reflexivity].
Qed.

Lemma archived_only (b : bool) (c : Chat.t) :
  same_but_archived c (Chat.with_is_archived c b)
  /\ Chat.is_archived (Chat.with_is_archived c b) = b.
Proof. now destruct c. Qed.

Lemma muted_only (b : bool) (c : Chat.t) :
  same_but_muted c (Chat.with_is_muted c b)
  /\ Chat.is_muted (Chat.with_is_muted c b) = b.
Proof. now destruct c. Qed.

Ltac settle s :=
  unfold settles, next_fault, step, discard, archiveChat, unarchiveChat,
    muteChat, unmuteChat, deleteChat, try_catch, bind, await,
    request_write, set, throw;
  destruct (faults (world s)) as [|[e|] rest]; simpl;
  try reflexivity;
  (split; [| now repeat split]).

Lemma archiveChat_settles (b : bool) (chatId : uuid) (s : Sys) :
  settles s (if b then ArchiveChat chatId else UnarchiveChat chatId)
    (fun st st' =>
       patched chatId
         (fun c c' => same_but_archived c c' /\ Chat.is_archived c' = b)
         (chats st) (chats st')
       /\ rest_of_store_same st st').
Proof.
  destruct b; settle s;
    apply (patched_map chatId
             (fun c c' => same_but_archived c c' /\ Chat.is_archived c' = _)
             (fun c => Chat.with_is_archived c _));
    intros c; apply archived_only.
Qed.

Lemma muteChat_settles (b : bool) (chatId : uuid) (s : Sys) :
  settles s (if b then MuteChat chatId else UnmuteChat chatId)
    (fun st st' =>
       patched chatId
         (fun c c' => same_but_muted c c' /\ Chat.is_muted c' = b)
         (chats st) (chats st')
       /\ rest_of_store_same st st').
Proof.
  destruct b; settle s;
    apply (patched_map chatId
             (fun c c' => same_but_muted c c' /\ Chat.is_muted c' = _)
             (fun c => Chat.with_is_muted c _));
    intros c; apply muted_only.
Qed.

Lemma deleteChat_settles (chatId : uuid) (s : Sys) :
  settles s (DeleteChat chatId)
    (fun st st' =>
       chats st'
       = filter (fun c => negb (String.eqb (Chat.id c) chatId)) (chats st)
       /\ rest_of_store_same st st').
Proof. settle s; reflexivity. Qed.

(** C10: each of archive, unarchive, mute, unmute and delete issues one
    request.  When the request fails, the store is exactly as before
    except that the error field holds the failure's message.  When it
    goes through, the directory is patched position by position: entries
    with another id are untouched, entries with the given id differ from
    their old selves in the toggled flag only, which now has the
    requested value (for delete: exactly the entries with the given id
    are gone); the rest of the store is untouched. *)
Theorem C10_toggles_patch_only_after_success (chatId : uuid) (s : Sys) :
  settles s (ArchiveChat chatId)
    (fun st st' =>
       patched chatId
         (fun c c' => same_but_archived c c' /\ Chat.is_archived c' = true)
         (chats st) (chats st')
       /\ rest_of_store_same st st')
  /\ settles s (UnarchiveChat chatId)
       (fun st st' =>
          patched chatId
            (fun c c' => same_but_archived c c' /\ Chat.is_archived c' = false)
            (chats st) (chats st')
          /\ rest_of_store_same st st')
  /\ settles s (MuteChat chatId)
       (fun st st' =>
          patched chatId
            (fun c c' => same_but_muted c c' /\ Chat.is_muted c' = true)
            (chats st) (chats st')
          /\ rest_of_store_same st st')
  /\ settles s (UnmuteChat chatId)
       (fun st st' =>
          patched chatId
            (fun c c' => same_but_muted c c' /\ Chat.is_muted c' = false)
            (chats st) (chats st')
          /\ rest_of_store_same st st')
  /\ settles s (DeleteChat chatId)
       (fun st st' =>
          chats st'
          = filter (fun c => negb (String.eqb (Chat.id c) chatId)) (chats st)
          /\ rest_of_store_same st st').
Proof.
  split; [exact (archiveChat_settles true chatId s)|].
  split; [exact (archiveChat_settles false chatId s)|].
  split; [exact (muteChat_settles true chatId s)|].
  split; [exact (muteChat_settles false chatId s)|].
  exact (deleteChat_settles chatId s).
Qed.

End Toggles.

(* ================================================================== *)
(** ** Acting without a signed-in user *)

Section Unauthenticated.

Import Backend ChatStore.

Ltac unfold_action :=
  unfold step, discard, fetchChats, startChat, createGroupChat,
    fetchMessages, sendMessage, archiveChat, unarchiveChat, muteChat,
    unmuteChat, deleteChat, finally, try_catch, bind, set, get, getUser,
    await, throw, ret, request_write.

Lemma toggles_ignore_session (chatId : uuid) (s : Sys) :
  ignores_session (ArchiveChat chatId) s
  /\ ignores_session (UnarchiveChat chatId) s
  /\ ignores_session (MuteChat chatId) s
  /\ ignores_session (UnmuteChat chatId) s
  /\ ignores_session (DeleteChat chatId) s.
Proof.
  repeat split; unfold signed_in_as, elsewhere; unfold_action; simpl;
    destruct (faults (world s)) as [|[e|] rest]; reflexivity.
Qed.

(** C8, as stated, fails: nobody is signed in, yet archiving "X" reports
    no error at all. *)
Lemma C8_counterexample :
  session (world (signed_in_as None open_on_X)) = None
  /\ ~ fails_unauthenticated (ArchiveChat "X") (signed_in_as None open_on_X).
Proof.
  split; [reflexivity|].
  unfold fails_unauthenticated. intros [H _]. vm_compute in H. discriminate.
Qed.

(** C8, amended: with no signed-in user, listing, starting a direct
    conversation, creating a group and opening a conversation end with
    the error "Not authenticated" and without having sent any request
    (the service is exactly as before); starting and creating also throw
    that error to the caller.  Sending fails before any request as well,
    with "Not authenticated" when a conversation is open and "No active
    chat" when none is.  Archive, unarchive, mute, unmute and delete never
    look at the session: their effect is the same signed in or not. *)
Theorem C8_unauthenticated_fail_before_any_request
    (s : Sys) (doctorId chatId : uuid) (name body : string)
    (memberIds : list uuid) :
  session (world s) = None ->
  fails_unauthenticated FetchChats s
  /\ fails_unauthenticated (StartChat doctorId) s
  /\ fst (startChat doctorId s) = Threw (Error "Not authenticated")
  /\ fails_unauthenticated (CreateGroupChat name memberIds) s
  /\ fst (createGroupChat name memberIds s)
     = Threw (Error "Not authenticated")
  /\ fails_unauthenticated (FetchMessages chatId) s
  /\ error (store (step (SendMessage body) s))
     = Some (if is_some (currentChat (store s))
             then "Not authenticated" else "No active chat")
  /\ world (step (SendMessage body) s) = world s
  /\ ignores_session (ArchiveChat chatId) s
  /\ ignores_session (UnarchiveChat chatId) s
  /\ ignores_session (MuteChat chatId) s
  /\ ignores_session (UnmuteChat chatId) s
  /\ ignores_session (DeleteChat chatId) s.
Proof.
  intros Hu.
  assert (F : fails_unauthenticated FetchChats s).
  { unfold fails_unauthenticated. unfold_action. simpl. rewrite Hu.
    now split. }
  assert (S1 : fails_unauthenticated (StartChat doctorId) s
               /\ fst (startChat doctorId s)
                  = Threw (Error "Not authenticated")).
  { unfold fails_unauthenticated. unfold_action. simpl. rewrite Hu.
    now repeat split. }
  assert (G : fails_unauthenticated (CreateGroupChat name memberIds) s
              /\ fst (createGroupChat name memberIds s)
                 = Threw (Error "Not authenticated")).
  { unfold fails_unauthenticated. unfold_action. simpl. rewrite Hu.
    now repeat split. }
  assert (M : fails_unauthenticated (FetchMessages chatId) s).
  { unfold fails_unauthenticated. unfold_action. simpl. rewrite Hu.
    now split. }
  assert (S2 : error (store (step (SendMessage body) s))
               = Some (if is_some (currentChat (store s))
                       then "Not authenticated" else "No active chat")
               /\ world (step (SendMessage body) s) = world s).
  { unfold_action. simpl.
    destruct (currentChat (store s)); simpl; [rewrite Hu|]; now split. }
  destruct S1 as [S1 S1'], G as [G G'], S2 as [S2 S2'].
  repeat (split; [assumption|]).
  apply toggles_ignore_session.
Qed.

(** Nobody is signed in and conversation "X" is open. *)
Lemma C8_witness :
  fails_unauthenticated FetchChats (signed_in_as None open_on_X)
  /\ fails_unauthenticated (StartChat "B") (signed_in_as None open_on_X)
  /\ fails_unauthenticated (FetchMessages "X") (signed_in_as None open_on_X)
  /\ error (store (step (SendMessage "hi") (signed_in_as None open_on_X)))
     = Some "Not authenticated".
Proof.
  destruct (@C8_unauthenticated_fail_before_any_request
              (signed_in_as None open_on_X) "B" "X" "ward" "hi" ["B"]
              eq_refl)
    as (F & S1 & _ & _ & _ & M & S2 & _).
  exact (conj F (conj S1 (conj M S2))).
Defined.

End Unauthenticated.

(* ================================================================== *)
(** ** The live-update listener *)

Section Listener.

Import Backend ChatStore.

(** *** Which actions touch the subscription *)

Lemma keeps_ret {A : Type} (a : A) : keeps_subscription (ret a).
Proof. now intros s. Qed.

Lemma keeps_throw {A : Type} (e : JsError) :
  keeps_subscription (@throw A e).
Proof. now intros s. Qed.

Lemma keeps_get : keeps_subscription get.
Proof. now intros s. Qed.

Lemma keeps_getUser : keeps_subscription getUser.
Proof. now intros s. Qed.

Lemma keeps_set (f : ChatState -> ChatState) :
  (forall st, subscriptions (f st) = subscriptions st) ->
  keeps_subscription (set f).
Proof. intros Hf s. simpl. now rewrite Hf. Qed.

Lemma keeps_await {A : Type} (call : World -> A * World) :
  (forall w, channels (snd (call w)) = channels w) ->
  keeps_subscription (await call).
Proof. intros Hc s. simpl. now rewrite Hc. Qed.

Lemma keeps_bind {A B : Type} (m : Async A) (k : A -> Async B) :
  keeps_subscription m -> (forall a, keeps_subscription (k a)) ->
  keeps_subscription (bind m k).
Proof.
  intros Hm Hk s. unfold bind. specialize (Hm s).
  destruct (m s) as [[a|e] s1]; simpl in *.
  - destruct (Hk a s1) as [H1 H2], Hm as [H3 H4]. split; congruence.
  - exact Hm.
Qed.

Lemma keeps_try_catch {A : Type} (body : Async A)
    (handler : JsError -> Async A) :
  keeps_subscription body -> (forall e, keeps_subscription (handler e)) ->
  keeps_subscription (try_catch body handler).
Proof.
  intros Hm Hk s. unfold try_catch. specialize (Hm s).
  destruct (body s) as [[a|e] s1]; simpl in *.
  - exact Hm.
  - destruct (Hk e s1) as [H1 H2], Hm as [H3 H4]. split; congruence.
Qed.

Lemma keeps_finally {A : Type} (body : Async A) (final : Async unit) :
  keeps_subscription body -> keeps_subscription final ->
  keeps_subscription (finally body final).
Proof.
  intros Hm Hk s. unfold finally. specialize (Hm s).
  destruct (body s) as [r s1]; simpl in *.
  destruct (Hk s1) as [H1 H2], Hm as [H3 H4]. split; congruence.
Qed.

Lemma request_read_channels {A : Type} (q : Sql.Db -> JsError + A)
    (w : World) :
  channels (snd (request_read q w)) = channels w.
Proof.
  unfold request_read. now destruct (faults w) as [|[e|] rest].
Qed.

Lemma request_write_channels {A : Type}
    (q : Sql.Db -> (JsError + A) * Sql.Db) (w : World) :
  channels (snd (request_write q w)) = channels w.
Proof.
  unfold request_write. now destruct (faults w) as [|[e|] rest].
Qed.

Lemma request_insert_channels {A : Type}
    (q : uuid -> timestamptz -> Sql.Db -> (JsError + A) * Sql.Db)
    (w : World) :
  channels (snd (request_insert q w)) = channels w.
Proof.
  unfold request_insert. now destruct (faults w) as [|[e|] rest].
Qed.

Ltac keeps_step :=
  first
    [ apply keeps_ret | apply keeps_throw | apply keeps_get
    | apply keeps_getUser
    | apply keeps_bind | apply keeps_try_catch | apply keeps_finally
    | apply keeps_set; intros; reflexivity
    | apply keeps_await; intros;
      first [ apply request_read_channels | apply request_write_channels
            | apply request_insert_channels ]
    | match goal with
      | |- forall _, _ => intro
      | |- keeps_subscription (match ?x with _ => _ end) => destruct x
      | |- keeps_subscription (if ?x then _ else _) => destruct x
      end ].

Ltac keeps := repeat keeps_step.

Lemma keeps_fetchChats : keeps_subscription fetchChats.
Proof. unfold fetchChats. keeps. Qed.

Lemma keeps_startChat (doctorId : uuid) :
  keeps_subscription (startChat doctorId).
Proof. unfold startChat. keeps; apply keeps_fetchChats. Qed.

Lemma keeps_createGroupChat (name : string) (memberIds : list uuid) :
  keeps_subscription (createGroupChat name memberIds).
Proof. unfold createGroupChat. keeps; apply keeps_fetchChats. Qed.

Lemma keeps_fetchMessages (chatId : uuid) :
  keeps_subscription (fetchMessages chatId).
Proof.
  unfold fetchMessages, rpc_mark_messages_as_read.
  keeps; apply keeps_fetchChats.
Qed.

Lemma keeps_sendMessage (content : string) :
  keeps_subscription (sendMessage content).
Proof. unfold sendMessage. keeps; apply keeps_fetchChats. Qed.

Lemma keeps_on_insert (chatId : uuid) (payload : Payload) :
  keeps_subscription (on_insert chatId payload).
Proof.
  unfold on_insert, rpc_mark_messages_as_read_1.
  keeps; apply keeps_fetchChats.
Qed.

Lemma keeps_deliver_to (chs : list Channel) (row : Sql.chat_messages_row) :
  keeps_subscription (deliver_to chs row).
Proof.
  induction chs as [|ch chs IH]; simpl; [apply keeps_ret|].
  apply keeps_bind; [|intros _; exact IH].
  destruct (feed_delivers ch row); [apply keeps_on_insert | apply keeps_ret].
Qed.

Lemma step_keeps (a : Action) (s : Sys) :
  keeps_listener a = true ->
  channels (world (step a s)) = channels (world s)
  /\ subscriptions (store (step a s)) = subscriptions (store s).
Proof.
  destruct a; simpl; intros Ha; try discriminate; unfold discard.
  - apply keeps_fetchChats.
  - apply keeps_startChat.
  - apply keeps_createGroupChat.
  - revert s. change (keeps_subscription (archiveChat chatId)).
    unfold archiveChat. keeps.
  - revert s. change (keeps_subscription (unarchiveChat chatId)).
    unfold unarchiveChat. keeps.
  - revert s. change (keeps_subscription (muteChat chatId)).
    unfold muteChat. keeps.
  - revert s. change (keeps_subscription (unmuteChat chatId)).
    unfold unmuteChat. keeps.
  - revert s. change (keeps_subscription (deleteChat chatId)).
    unfold deleteChat. keeps.
  - apply keeps_fetchMessages.
  - apply keeps_sendMessage.
  - unfold realtime_insert. apply keeps_deliver_to.
  - now split.
Qed.

(** *** Joined channels *)

Lemma joined_at_ge (n x : nat) (chs : list Channel) :
  In x (joined_at n chs) -> (n <= x)%nat.
Proof.
  revert n. induction chs as [|c chs IH]; simpl; intros n H; [easy|].
  destruct (ch_joined c); simpl in H.
  - destruct H as [<-|H]; [lia|]. apply IH in H. lia.
  - apply IH in H. lia.
Qed.

Lemma joined_at_leave (n k : nat) (chs : list Channel) :
  joined_at n (leave k chs)
  = filter (fun x => negb (Nat.eqb x (n + k))) (joined_at n chs).
Proof.
  revert n k. induction chs as [|c chs IH]; intros n k; [now destruct k|].
  assert (Hskip : forall m, (m <= n)%nat ->
            filter (fun x => negb (Nat.eqb x m)) (joined_at (S n) chs)
            = joined_at (S n) chs).
  { intros m Hm. apply forallb_filter_id. apply forallb_forall.
    intros x Hx. apply joined_at_ge in Hx.
    apply negb_true_iff, Nat.eqb_neq. lia. }
  destruct k as [|k]; simpl.
  - rewrite Nat.add_0_r.
    destruct (ch_joined c); simpl; [rewrite Nat.eqb_refl; simpl|];
      now rewrite Hskip.
  - rewrite IH. replace (S n + k)%nat with (n + S k)%nat by lia.
    destruct (ch_joined c); simpl; [|reflexivity].
    destruct (Nat.eqb n (n + S k)) eqn:E; [|reflexivity].
    apply Nat.eqb_eq in E. lia.
Qed.

Lemma joined_at_app (n : nat) (l : list Channel) (c : Channel) :
  joined_at n (l ++ [c])
  = joined_at n l ++ (if ch_joined c then [(n + length l)%nat] else []).
Proof.
  revert n. induction l as [|d l IH]; intros n; simpl.
  - rewrite Nat.add_0_r. now destruct (ch_joined c).
  - rewrite IH. replace (S n + length l)%nat with (n + S (length l))%nat
      by lia.
    now destruct (ch_joined d).
Qed.

Lemma leave_length (k : nat) (chs : list Channel) :
  length (leave k chs) = length chs.
Proof.
  revert k. induction chs as [|c chs IH]; intros [|k]; simpl; auto.
Qed.

Lemma joined_at_filter (n : nat) (chs : list Channel) :
  length (joined_at n chs) = length (filter ch_joined chs).
Proof.
  revert n. induction chs as [|c chs IH]; intros n; simpl; [reflexivity|].
  destruct (ch_joined c); simpl; now rewrite IH.
Qed.

Lemma none_joined (chs : list Channel) :
  joined_at 0 chs = [] -> filter ch_joined chs = [].
Proof.
  intros H. apply length_zero_iff_nil. rewrite <- (joined_at_filter 0).
  now rewrite H.
Qed.

(** Releasing what the store holds releases every joined channel. *)
Lemma unsubscribe_all_releases (s : Sys) :
  one_subscription s ->
  joined_at 0 (channels (unsubscribe_all (subscriptions (store s)) (world s)))
  = []
  /\ length (channels (unsubscribe_all (subscriptions (store s)) (world s)))
     = length (channels (world s)).
Proof.
  intros [Hj Hl].
  destruct (subscriptions (store s)) as [|[k] [|sub subs]]; simpl in *.
  - now split.
  - unfold channel_unsubscribe; simpl. rewrite joined_at_leave, Hj. simpl.
    rewrite Nat.eqb_refl. split; [reflexivity | apply leave_length].
  - lia.
Qed.

Lemma boot_one_subscription (w : World) : one_subscription (boot w).
Proof. split; simpl; [reflexivity | lia]. Qed.

(** What attaching does, from any state in which the store holds every
    joined channel. *)
Lemma subscribe_result (chatId : uuid) (s : Sys) :
  one_subscription s ->
  let s' := step (SubscribeToMessages chatId) s in
  exists old,
    channels (world s') = old ++ [channel_on chatId]
    /\ joined_at 0 old = []
    /\ subscriptions (store s') = [{| channel := length old |}].
Proof.
  intros Hs. destruct (unsubscribe_all_releases Hs) as [Hj Hl].
  exists (channels (unsubscribe_all (subscriptions (store s)) (world s))).
  split; [reflexivity|]. split; [exact Hj | reflexivity].
Qed.

Lemma step_one_subscription (a : Action) (s : Sys) :
  one_subscription s -> one_subscription (step a s).
Proof.
  intros Hs. destruct (keeps_listener a) eqn:Ha.
  - destruct (step_keeps a s Ha) as [Hc Hsub].
    unfold one_subscription. rewrite Hc, Hsub. exact Hs.
  - destruct a; try discriminate.
    + destruct (subscribe_result chatId Hs) as (old & Hc & Hj & Hsub).
      unfold one_subscription. rewrite Hc, Hsub, joined_at_app, Hj.
      simpl. split; [reflexivity | lia].
    + destruct (unsubscribe_all_releases Hs) as [Hj _].
      split; simpl; [exact Hj | lia].
Qed.

Lemma run_one_subscription (acts : list Action) (s : Sys) :
  one_subscription s -> one_subscription (run acts s).
Proof.
  revert s. induction acts as [|a acts IH]; intros s Hs; [exact Hs|].
  simpl. apply IH. now apply step_one_subscription.
Qed.

Lemma reachable_one_subscription (w : World) (acts : list Action) :
  one_subscription (run acts (boot w)).
Proof. apply run_one_subscription, boot_one_subscription. Qed.

(** C7: in every state the store can reach, at most one channel is
    joined.  Attaching to X from any such state, attached or not, leaves
    exactly one joined channel, the one filtered on X, and one
    subscription in the store.  Detaching leaves none; detaching again
    changes nothing and does not throw, and neither does detaching in the
    store as first created. *)
Theorem C7_at_most_one_subscription
    (w : World) (acts : list Action) (X : uuid) :
  let s := run acts (boot w) in
  (length (joined_channels (world s)) <= 1)%nat
  /\ joined_channels (world (step (SubscribeToMessages X) s))
     = [channel_on X]
  /\ length (subscriptions (store (step (SubscribeToMessages X) s)))
     = 1%nat
  /\ joined_channels (world (step Cleanup s)) = []
  /\ subscriptions (store (step Cleanup s)) = []
  /\ step Cleanup (step Cleanup s) = step Cleanup s
  /\ fst (cleanup (step Cleanup s)) = Returned tt
  /\ step Cleanup (boot w) = boot w.
Proof.
  intros s. pose proof (reachable_one_subscription w acts) as Hs.
  fold s in Hs. split; [|split; [|split; [|split]]].
  - unfold joined_channels. rewrite <- (joined_at_filter 0).
    destruct Hs as [-> Hl]. now rewrite length_map.
  - destruct (subscribe_result X Hs) as (old & Hc & Hj & _).
    unfold joined_channels. rewrite Hc, filter_app, (none_joined _ Hj).
    reflexivity.
  - destruct (subscribe_result X Hs) as (old & _ & _ & Hsub).
    now rewrite Hsub.
  - destruct (unsubscribe_all_releases Hs) as [Hj _].
    unfold joined_channels. now apply none_joined.
  - repeat split.
Qed.

(** *** The change feed and the listener *)

Lemma request_read_db {A : Type} (q : Sql.Db -> JsError + A) (w : World) :
  db (snd (request_read q w)) = db w.
Proof.
  unfold request_read. now destruct (faults w) as [|[e|] rest].
Qed.

(** [fetchChats] never throws; it leaves the timeline and the database
    alone, and for a signed-in user it ends with no error. *)
Lemma fetchChats_frame (s : Sys) :
  fst (fetchChats s) = Returned tt
  /\ messages (store (snd (fetchChats s))) = messages (store s)
  /\ db (world (snd (fetchChats s))) = db (world s)
  /\ (is_some (session (world s)) = true ->
      error (store (snd (fetchChats s))) = None).
Proof.
  unfold fetchChats, finally, try_catch, bind, set, getUser, await, throw.
  simpl. destruct (session (world s)) as [uid|]; simpl.
  - rewrite !request_read_db. now repeat split.
  - repeat split. discriminate.
Qed.

(** The listener prepends whatever it is handed. *)
Lemma on_insert_prepends (chatId : uuid) (payload : Payload) (s : Sys) :
  exists sender,
    messages (store (snd (on_insert chatId payload s)))
    = Message.of_row (data payload) sender :: messages (store s).
Proof.
  exists (data_of (fst (request_read
                          (select_sender (Sql.m_sender_id (data payload)))
                          (world s)))).
  unfold on_insert, bind, await, set, getUser, ret. simpl.
  match goal with
  | |- context [match ?u with Some _ => _ | None => _ end] =>
      destruct u as [uid|]
  end.
  - destruct (negb (String.eqb (Sql.m_sender_id (data payload)) uid)); simpl;
      match goal with
      | |- context [fetchChats ?x] =>
          destruct (fetchChats_frame x) as (_ & Hm & _);
          destruct (fetchChats x) as [r s1]; simpl in *; now rewrite Hm
      end.
  - simpl.
    match goal with
    | |- context [fetchChats ?x] =>
        destruct (fetchChats_frame x) as (_ & Hm & _);
        destruct (fetchChats x) as [r s1]; simpl in *; now rewrite Hm
    end.
Qed.

(** An insert that no channel is delivered changes nothing. *)
Lemma deliver_to_nobody (chs : list Channel) (row : Sql.chat_messages_row)
    (s : Sys) :
  forallb (fun ch => negb (feed_delivers ch row)) chs = true ->
  deliver_to chs row s = (Returned tt, s).
Proof.
  induction chs as [|ch chs IH]; simpl; intros H; [reflexivity|].
  apply andb_true_iff in H as [H1 H2]. apply negb_true_iff in H1.
  unfold bind. rewrite H1. simpl. now apply IH.
Qed.

Lemma none_joined_no_delivery (chs : list Channel)
    (row : Sql.chat_messages_row) (n : nat) :
  joined_at n chs = [] ->
  forallb (fun ch => negb (feed_delivers ch row)) chs = true.
Proof.
  revert n. induction chs as [|ch chs IH]; simpl; intros n H; [reflexivity|].
  unfold feed_delivers at 1. destruct (ch_joined ch); [discriminate|].
  simpl. now apply (IH (S n)).
Qed.

Lemma run_keeps (acts : list Action) (s : Sys) :
  forallb keeps_listener acts = true ->
  channels (world (run acts s)) = channels (world s).
Proof.
  revert s. induction acts as [|a acts IH]; simpl; intros s H; [reflexivity|].
  apply andb_true_iff in H as [Ha H]. rewrite (IH _ H).
  now apply step_keeps.
Qed.

(** C6, as stated, fails: "A" listens on "X" and the listener is handed
    an insert of "B" into conversation "Y".  The row lands on the timeline
    of "X", and the unread counter of "X" drops from 1 to 0. *)
Lemma C6_counterexample :
  Sql.m_chat_id foreign_message <> Some "X"
  /\ ~ not_applied open_on_X_unread
         (snd (on_insert "X" {| data := foreign_message |} open_on_X_unread))
  /\ messages
       (store (snd (on_insert "X" {| data := foreign_message |}
                      open_on_X_unread)))
     = [Message.of_row foreign_message None]
  /\ map Sql.c_unread_count (Sql.chats (db (world open_on_X_unread))) = [1]
  /\ map Sql.c_unread_count
       (Sql.chats
          (db (world (snd (on_insert "X" {| data := foreign_message |}
                             open_on_X_unread)))))
     = [0].
Proof.
  split; [discriminate|]. split; [|now vm_compute].
  intros [H _]. vm_compute in H. discriminate.
Qed.

(** C6, amended: from the moment the listener is attached to X and for as
    long as it is neither re-attached nor detached, an insert whose
    chat id is not X is not delivered by the change feed to any listener
    of this store, so the whole system, timeline and counters included,
    is left exactly as it was.  The guard is the channel's filter: the
    listener itself compares nothing and prepends to the timeline
    whatever event it is handed. *)
Theorem C6_feed_filter_keeps_foreign_inserts_out
    (w : World) (before after : list Action) (X : uuid)
    (row : Sql.chat_messages_row) :
  forallb keeps_listener after = true ->
  Sql.m_chat_id row <> Some X ->
  let s := run after (step (SubscribeToMessages X) (run before (boot w))) in
  step (RealtimeInsert row) s = s
  /\ forall chatId payload s0,
       exists sender,
         messages (store (snd (on_insert chatId payload s0)))
         = Message.of_row (data payload) sender :: messages (store s0).
Proof.
  intros Hafter Hrow s. split; [|intros; apply on_insert_prepends].
  destruct (subscribe_result X (reachable_one_subscription w before))
    as (old & Hc & Hj & _).
  unfold step, discard, realtime_insert.
  unfold s at 1. rewrite (run_keeps _ _ Hafter). rewrite Hc.
  rewrite deliver_to_nobody; [reflexivity|].
  rewrite forallb_app, (none_joined_no_delivery old row 0 Hj). simpl.
  unfold feed_delivers. simpl.
  destruct (Sql.m_chat_id row) as [c|]; simpl; [|reflexivity].
  destruct (String.eqb c X) eqn:E; [|reflexivity].
  apply String.eqb_eq in E. subst c. now contradiction Hrow.
Qed.

(** "A" attaches to "X", lists the conversations, and an insert into "Y"
    happens. *)
Lemma C6_witness :
  step (RealtimeInsert foreign_message)
    (run [FetchChats]
       (step (SubscribeToMessages "X")
          (run [] (boot (service db_own_unread (Some "A"))))))
  = run [FetchChats]
      (step (SubscribeToMessages "X")
         (run [] (boot (service db_own_unread (Some "A"))))).
Proof.
  refine (proj1 (@C6_feed_filter_keeps_foreign_inserts_out
                   (service db_own_unread (Some "A")) [] [FetchChats] "X"
                   foreign_message eq_refl _)).
  discriminate.
Defined.

End Listener.

(* ================================================================== *)
(** ** Sending *)

Section Sending.

Import Backend ChatStore.

Lemma triggers_keep_messages (row : Sql.chat_messages_row) (d : Sql.Db) :
  Sql.chat_messages (Sql.after_insert_chat_messages row d)
  = Sql.chat_messages d.
Proof.
  unfold Sql.after_insert_chat_messages, Sql.update_chat_on_message.
  destruct (Sql.m_chat_id row); [reflexivity|].
  now destruct (Sql.m_group_id row).
Qed.


(** The concrete state [open_on_X] is one the store reaches: "A" lists
    the conversations, opens "X" and attaches the listener. *)
Lemma open_on_X_reachable :
  open_on_X
  = run [FetchChats; FetchMessages "X"; SubscribeToMessages "X"]
      (boot (service (Sql.with_chats no_rows [chat_X]) (Some "A"))).
Proof. reflexivity. Qed.

End Sending.

(* ================================================================== *)
(** ** Unread counts in the listing, and starting a direct conversation *)

Section WorkedCases.

Import Backend ChatStore.

(** With [sender_id] missing from the embedded messages, the comparison
    with the viewer is always true: the listing counts every unread
    message of a direct conversation. *)
Lemma direct_unread_count_is_every_unread (uid : uuid) (chat : direct_chat) :
  Chat.unread_count (processDirectChat uid chat)
  = Z.of_nat
      (length (filter (fun m => negb (em_is_read m)) (dc_messages chat))).
Proof.
  simpl. do 2 f_equal. apply filter_ext. intros m.
  unfold em_sender_id, js_strict_neq. apply andb_true_r.
Qed.

(** The listing hands a group its [unread_count] column as it is. *)
Lemma group_unread_count_is_the_column (chat : group_chat) :
  Chat.unread_count (processGroupChat chat)
  = Sql.g_unread_count (gc_row chat).
Proof. reflexivity. Qed.

(** C2 on the code: "A" is the only one to have written, once, in the
    direct conversation "X", and once in the group "G"; neither message
    is read.  The data model's unread count for "A" is 0 in both; the
    listing "A" fetches shows 1 for both. *)
Theorem C2_listing_counts_own_unread_messages :
  unread_for "A" "X" db_own_unread = 0
  /\ map (fun c => (Chat.id c, Chat.unread_count c))
       (chats (store (step FetchChats
                        (boot (service db_own_unread (Some "A"))))))
     = [("X", 1)]
  /\ unread_for_group "A" "G" db_group_own_unread = 0
  /\ map (fun c => (Chat.id c, Chat.unread_count c))
       (chats (store (step FetchChats
                        (boot (service db_group_own_unread (Some "A"))))))
     = [("G", 1)].
Proof. now vm_compute. Qed.

(** C3 on the code: "A" starts a conversation with "B" and gets "id-0";
    asking again, "A" gets "id-0" again.  Then "B" starts a conversation
    with "A": the lookup misses the existing row and a second
    conversation, "id-1", is created for the same pair. *)
Theorem C3_swapped_start_creates_second_conversation :
  let s1 := step (StartChat "B") (boot (service no_rows (Some "A"))) in
  let s2 := signed_in_as (Some "B") s1 in
  fst (startChat "B" (boot (service no_rows (Some "A")))) = Returned "id-0"
  /\ fst (startChat "B" s1) = Returned "id-0"
  /\ db (world (step (StartChat "B") s1)) = db (world s1)
  /\ fst (startChat "A" s2) = Returned "id-1"
  /\ map (fun c => (Sql.c_id c, Sql.c_user_id c, Sql.c_doctor_id c))
       (Sql.chats (db (world (step (StartChat "A") s2))))
     = [("id-0", "A", "B"); ("id-1", "B", "A")].
Proof. now vm_compute. Qed.

End WorkedCases.

(* ================================================================== *)
(** ** The unread counters of the database *)

Section Counters.

Import Sql.

Lemma update_where_none {R : Type} (cond : R -> bool) (f : R -> R)
    (rows : list R) :
  (forall r, cond r = false) -> update_where cond f rows = rows.
Proof.
  intros H. unfold update_where. rewrite <- (map_id rows) at 2.
  apply map_ext. intros r. now rewrite H.
Qed.






(** What the two insert triggers do together to the tables. *)
Lemma after_insert_tables (row : chat_messages_row) (d : Db) :
  chats (after_insert_chat_messages row d)
  = update_where (fun c => sql_eq (m_chat_id row) (c_id c))
      (fun c => chat_bump (m_created_at row)
                  (chat_set_activity (m_created_at row) c))
      (chats d)
  /\ chat_groups (after_insert_chat_messages row d)
     = match m_chat_id row with
       | Some _ => chat_groups d
       | None =>
           update_where (fun g => sql_eq (m_group_id row) (g_id g))
             (group_bump (m_created_at row)) (chat_groups d)
       end.
Proof.
  unfold after_insert_chat_messages, update_chat_on_message,
    update_chat_timestamp.
  destruct (m_chat_id row) as [cid|] eqn:Ec; simpl.
  - split; [|reflexivity]. unfold update_where. rewrite map_map.
    apply map_ext. intros c.
    destruct (String.eqb cid (c_id c)) eqn:E; simpl; now rewrite E.
  - rewrite !update_where_none by reflexivity.
    destruct (m_group_id row) as [gid|] eqn:Eg; simpl;
      rewrite ?update_where_none by reflexivity; now split.
Qed.







End Counters.

(* ================================================================== *)
(** ** What the open conversation carries *)

Section OpenConversation.

Import Backend ChatStore.

Variable P : ChatState -> Prop.

Lemma preserves_ret {A : Type} (a : A) : preserves P (ret a).
Proof. now intros s. Qed.

Lemma preserves_throw {A : Type} (e : JsError) : preserves P (@throw A e).
Proof. now intros s. Qed.

Lemma preserves_get : preserves P get.
Proof. now intros s. Qed.

Lemma preserves_getUser : preserves P getUser.
Proof. now intros s. Qed.

Lemma preserves_await {A : Type} (call : World -> A * World) :
  preserves P (await call).
Proof. now intros s. Qed.

Lemma preserves_set (f : ChatState -> ChatState) :
  (forall st, P st -> P (f st)) -> preserves P (set f).
Proof. intros Hf s. simpl. apply Hf. Qed.

Lemma preserves_bind {A B : Type} (m : Async A) (k : A -> Async B) :
  preserves P m -> (forall a, preserves P (k a)) -> preserves P (bind m k).
Proof.
  intros Hm Hk s Hs. unfold bind. specialize (Hm s Hs).
  destruct (m s) as [[a|e] s1]; simpl in *; [now apply Hk | exact Hm].
Qed.

Lemma preserves_try_catch {A : Type} (body : Async A)
    (handler : JsError -> Async A) :
  preserves P body -> (forall e, preserves P (handler e)) ->
  preserves P (try_catch body handler).
Proof.
  intros Hm Hk s Hs. unfold try_catch. specialize (Hm s Hs).
  destruct (body s) as [[a|e] s1]; simpl in *; [exact Hm | now apply Hk].
Qed.

Lemma preserves_finally {A : Type} (body : Async A) (final : Async unit) :
  preserves P body -> preserves P final -> preserves P (finally body final).
Proof.
  intros Hm Hk s Hs. unfold finally. specialize (Hm s Hs).
  destruct (body s) as [r s1]; simpl in *. now apply Hk.
Qed.

End OpenConversation.

Section OpenConversationUntyped.

Import Backend ChatStore.

Ltac untyped_step :=
  first
    [ apply preserves_ret | apply preserves_throw | apply preserves_get
    | apply preserves_getUser | apply preserves_await
    | apply preserves_bind | apply preserves_try_catch
    | apply preserves_finally
    | apply preserves_set; intros st Hst; exact Hst
    | match goal with
      | |- forall _, _ => intro
      | |- preserves _ (match ?x with _ => _ end) => destruct x
      | |- preserves _ (if ?x then _ else _) => destruct x
      end ].

Ltac untyped := repeat untyped_step.

Lemma untyped_fetchChats : preserves current_chat_untyped fetchChats.
Proof. unfold fetchChats. untyped. Qed.

Lemma untyped_fetchMessages (chatId : uuid) :
  preserves current_chat_untyped (fetchMessages chatId).
Proof.
  unfold fetchMessages. apply preserves_bind; [untyped|].
  intros _. apply preserves_finally; [|untyped].
  apply preserves_try_catch; [|untyped].
  apply preserves_bind; [untyped|]. intros [uid|]; [|untyped].
  apply preserves_bind; [untyped|]. intros direct_r.
  apply preserves_bind; [untyped|]. intros group_r.
  destruct (or_else _ _) as [chat|] eqn:E; [|untyped].
  assert (Hchat : Chat.type chat = None).
  { destruct (row_of direct_r), (row_of group_r); simpl in E;
      inversion E; reflexivity. }
  apply preserves_bind.
  - apply preserves_set. intros st _ c Hc. simpl in Hc. congruence.
  - intros _. untyped; apply untyped_fetchChats.
Qed.

Lemma untyped_on_insert (chatId : uuid) (payload : Payload) :
  preserves current_chat_untyped (on_insert chatId payload).
Proof. unfold on_insert. untyped; apply untyped_fetchChats. Qed.

Lemma untyped_deliver_to (chs : list Channel) (row : Sql.chat_messages_row) :
  preserves current_chat_untyped (deliver_to chs row).
Proof.
  induction chs as [|ch chs IH]; simpl; [apply preserves_ret|].
  apply preserves_bind; [|intros _; exact IH].
  destruct (feed_delivers ch row);
    [apply untyped_on_insert | apply preserves_ret].
Qed.

Lemma untyped_step_action (a : Action) (s : Sys) :
  current_chat_untyped (store s) -> current_chat_untyped (store (step a s)).
Proof.
  revert s. destruct a; cbv beta iota delta [step discard];
    try match goal with
        | |- forall s, _ -> current_chat_untyped (store (snd (?m s))) =>
            change (preserves current_chat_untyped m)
        end.
  - apply untyped_fetchChats.
  - unfold startChat. untyped; apply untyped_fetchChats.
  - unfold createGroupChat. untyped; apply untyped_fetchChats.
  - unfold archiveChat. untyped.
  - unfold unarchiveChat. untyped.
  - unfold muteChat. untyped.
  - unfold unmuteChat. untyped.
  - unfold deleteChat. untyped.
  - apply untyped_fetchMessages.
  - unfold sendMessage. untyped; apply untyped_fetchChats.
  - unfold subscribeToMessages. untyped.
  - unfold cleanup. apply preserves_bind; [untyped|]. intros st.
    apply preserves_bind; [untyped|]. intros _. apply preserves_set.
    intros st' _ c Hc. discriminate.
  - intros s. unfold realtime_insert. apply untyped_deliver_to.
  - intros s H. exact H.
Qed.

Lemma run_untyped (acts : list Action) (s : Sys) :
  current_chat_untyped (store s) ->
  current_chat_untyped (store (run acts s)).
Proof.
  revert s. induction acts as [|a acts IH]; intros s Hs; [exact Hs|].
  simpl. apply IH. now apply untyped_step_action.
Qed.

Lemma reachable_untyped (w : World) (acts : list Action) :
  current_chat_untyped (store (run acts (boot w))).
Proof. apply run_untyped. intros c H. discriminate. Qed.

(** X2: whatever the store has done since it was created, the open
    conversation carries no [type], so a send stores its message with
    neither [chat_id] nor [group_id]: the message table gains at most that
    one row, and the tables of chats and groups, their activity timestamps
    and unread counters included, are left exactly as they were. *)
Theorem X2_send_stores_a_message_of_no_conversation
    (w : World) (acts : list Action) (body : string) :
  let s := run acts (boot w) in
  let s' := step (SendMessage body) s in
  Sql.chats (db (world s')) = Sql.chats (db (world s))
  /\ Sql.chat_groups (db (world s')) = Sql.chat_groups (db (world s))
  /\ (Sql.chat_messages (db (world s')) = Sql.chat_messages (db (world s))
      \/ exists row,
           Sql.chat_messages (db (world s'))
           = Sql.chat_messages (db (world s)) ++ [row]
           /\ Sql.m_chat_id row = None
           /\ Sql.m_group_id row = None
           /\ Sql.m_content row = body).
Proof.
  intros s s'. pose proof (reachable_untyped w acts) as Hu. fold s in Hu.
  unfold s'. clearbody s. clear s'.
  unfold step, discard, sendMessage, try_catch, bind, get, getUser, await,
    throw, set, request_insert, insert_chat_message.
  simpl.
  destruct (currentChat (store s)) as [c|] eqn:Ec; simpl;
    [|now repeat split; try left].
  rewrite (Hu c Ec).
  destruct (session (world s)) as [uid|]; simpl; [|now repeat split; try left].
  destruct (faults (world s)) as [|[e|] rest] eqn:Ef; simpl;
    try (now repeat split; try left);
    destruct (existsb _ (Sql.chat_messages (db (world s)))) eqn:Efresh;
    simpl; try (now repeat split; try left);
    match goal with
    | |- context [fetchChats ?x] =>
        destruct (fetchChats_frame x) as (Hr & _ & Hd & _);
        destruct (fetchChats x) as [[[]|e] s1]; simpl in *;
        try discriminate
    end;
    rewrite Hd; simpl;
    (split; [|split; [reflexivity|]]);
    try (right; eexists; repeat split; reflexivity);
    unfold Sql.update_where; rewrite map_id; reflexivity.
Qed.

End OpenConversationUntyped.

(* ================================================================== *)
(** ** The sent message on the timeline *)

Section SentOnce.

Import Backend ChatStore.



End SentOnce.

(* ================================================================== *)
(** ** Starting a direct conversation *)

Section StartChat.

Import Backend ChatStore.

Lemma filter_none {R : Type} (cond : R -> bool) (l : list R) :
  (forall r, In r l -> cond r = false) -> filter cond l = [].
Proof.
  induction l as [|r l IH]; intros H; [reflexivity|].
  simpl. rewrite (H r (or_introl eq_refl)). apply IH.
  intros r' Hr'. apply H. now right.
Qed.

(** Where a key is unique, a filter that selects by that key finds the one
    row that has it. *)
Lemma filter_the_one {R K : Type} (key : R -> K) (cond : R -> bool)
    (l : list R) (r : R) :
  NoDup (map key l) ->
  In r l ->
  cond r = true ->
  (forall c, In c l -> cond c = true -> key c = key r) ->
  filter cond l = [r].
Proof.
  induction l as [|a l IH]; intros Hnd Hin Hr Hkey; [destruct Hin|].
  simpl in Hnd. apply NoDup_cons_iff in Hnd as [Hna Hnd].
  assert (Hrest : forall c, In c l -> cond c = true -> key c = key r).
  { intros c Hc. apply Hkey. now right. }
  simpl. destruct Hin as [->|Hin].
  - rewrite Hr. f_equal. apply filter_none. intros c Hc.
    destruct (cond c) eqn:E; [|reflexivity].
    exfalso. apply Hna. rewrite <- (Hrest c Hc E). now apply in_map.
  - destruct (cond a) eqn:E.
    + exfalso. apply Hna. rewrite (Hkey a (or_introl eq_refl) E).
      now apply in_map.
    + now apply IH.
Qed.

Lemma single_found {R : Type} (l : list R) (r : R) :
  single l = inr r -> l = [r].
Proof.
  destruct l as [|a [|b l]]; simpl; intros H; try discriminate.
  now inversion H.
Qed.

(** The lookup of [startChat] for a peer other than the viewer selects the
    rows in which the viewer is the user and the peer is the doctor. *)
Lemma lookup_selects_ordered_pair (uid doctorId : uuid) (c : Sql.chats_row) :
  uid <> doctorId ->
  (String.eqb (Sql.c_user_id c) uid || String.eqb (Sql.c_doctor_id c) uid)
  && (if String.eqb uid doctorId
      then String.eqb (Sql.c_user_id c) doctorId
      else String.eqb (Sql.c_doctor_id c) doctorId) = true
  <-> Sql.c_user_id c = uid /\ Sql.c_doctor_id c = doctorId.
Proof.
  intros Hne. apply String.eqb_neq in Hne. rewrite Hne.
  rewrite andb_true_iff, orb_true_iff, !String.eqb_eq.
  apply String.eqb_neq in Hne. split.
  - intros [[H|H] H']; [now split | congruence].
  - intros [H H']. split; [now left | exact H'].
Qed.

(** X3: asking again for a conversation the viewer started returns it.
    When the table respects [UNIQUE(user_id, doctor_id)] and holds a row
    with the viewer as user and the peer as doctor, [startChat] for that
    peer returns the row's id, writes nothing to the database and leaves
    the store as it is. *)
Theorem X3_start_chat_returns_the_existing_conversation
    (s : Sys) (uid doctorId : uuid) (row : Sql.chats_row) :
  session (world s) = Some uid ->
  uid <> doctorId ->
  next_fault (world s) = None ->
  pairs_unique (db (world s)) ->
  In row (Sql.chats (db (world s))) ->
  Sql.c_user_id row = uid ->
  Sql.c_doctor_id row = doctorId ->
  fst (startChat doctorId s) = Returned (Sql.c_id row)
  /\ db (world (snd (startChat doctorId s))) = db (world s)
  /\ store (snd (startChat doctorId s)) = store s.
Proof.
  intros Hu Hne Hf Hun Hin Hru Hrd.
  assert (Hsel : select_existing_chat uid doctorId (db (world s)) = inr row).
  { unfold select_existing_chat.
    rewrite (@filter_the_one _ _
               (fun c => (Sql.c_user_id c, Sql.c_doctor_id c)) _ _ row);
      [reflexivity | exact Hun | exact Hin | |].
    - apply lookup_selects_ordered_pair; [exact Hne | now split].
    - intros c _ Hc. apply lookup_selects_ordered_pair in Hc as [H1 H2];
        [|exact Hne]. simpl. congruence. }
  unfold startChat, try_catch, bind, getUser, await, request_read, ret.
  simpl. rewrite Hu. simpl. unfold next_fault in Hf.
  destruct (faults (world s)) as [|[e|] rest]; try discriminate; simpl;
    rewrite Hsel; simpl; repeat split; now destruct s.
Qed.

(** "A" asks for the conversation with "B" that "A" started. *)
Lemma X3_witness :
  fst (startChat "B" (boot (service db_X (Some "A")))) = Returned "X"
  /\ db (world (snd (startChat "B" (boot (service db_X (Some "A"))))))
     = db (world (boot (service db_X (Some "A"))))
  /\ store (snd (startChat "B" (boot (service db_X (Some "A")))))
     = store (boot (service db_X (Some "A"))).
Proof.
  refine (@X3_start_chat_returns_the_existing_conversation
            (boot (service db_X (Some "A"))) "A" "B" chat_X
            eq_refl _ eq_refl _ _ eq_refl eq_refl).
  - discriminate.
  - repeat constructor. simpl. intros [].
  - now left.
Defined.

(** X4: the id [startChat] returns for a peer other than the viewer is the
    id of a stored conversation whose user is the viewer and whose doctor
    is the peer, whether the conversation was found or just created. *)
Theorem X4_start_chat_returns_a_conversation_of_the_pair
    (s : Sys) (uid doctorId id : uuid) :
  session (world s) = Some uid ->
  uid <> doctorId ->
  fst (startChat doctorId s) = Returned id ->
  exists row,
    In row (Sql.chats (db (world (snd (startChat doctorId s)))))
    /\ Sql.c_id row = id
    /\ Sql.c_user_id row = uid
    /\ Sql.c_doctor_id row = doctorId.
Proof.
  intros Hu Hne.
  unfold startChat, try_catch, bind, getUser, await, ret, throw, set.
  simpl. rewrite Hu. simpl.
  destruct (request_read (select_existing_chat uid doctorId) (world s))
    as [[findError|existing] w1] eqn:Eread; simpl.
  - destruct (code_differs findError "PGRST116"); simpl; [discriminate|].
    unfold request_insert, insert_chat.
    assert (Hd1 : db w1 = db (snd (request_read
                    (select_existing_chat uid doctorId) (world s))))
      by now rewrite Eread.
    destruct (faults w1) as [|[e|] rest]; simpl; try discriminate;
      destruct (existsb _ (Sql.chats (db w1))); simpl; try discriminate;
      match goal with
      | |- context [fetchChats ?x] =>
          destruct (fetchChats_frame x) as (Hr & _ & Hd & _);
          destruct (fetchChats x) as [[[]|e] s1]; simpl in *;
          try discriminate
      end;
      intros Hid; inversion Hid; subst id; rewrite Hd; simpl;
      eexists; (split; [apply in_or_app; right; now left|]);
      now repeat split.
  - intros Hid. inversion Hid. subst id. exists existing.
    assert (Hsel : select_existing_chat uid doctorId (db (world s))
                   = inr existing).
    { unfold request_read in Eread.
      destruct (faults (world s)) as [|[e|] rest]; inversion Eread;
        reflexivity. }
    assert (Hdb : db w1 = db (world s)).
    { replace w1 with (snd (request_read
                              (select_existing_chat uid doctorId) (world s)))
        by now rewrite Eread.
      apply request_read_db. }
    rewrite Hdb. unfold select_existing_chat in Hsel.
    apply single_found in Hsel.
    pose proof (in_eq existing []) as Hin. rewrite <- Hsel in Hin.
    apply filter_In in Hin as [Hin Hc].
    apply lookup_selects_ordered_pair in Hc as [H1 H2]; [|exact Hne].
    now repeat split.
Qed.

(** "B" asks for a conversation with "A" while only the one "A" started
    exists. *)
Lemma X4_witness :
  exists row,
    In row (Sql.chats (db (world (snd (startChat "A"
                                         (boot (service db_X (Some "B"))))))))
    /\ Sql.c_id row = "id-0"
    /\ Sql.c_user_id row = "B"
    /\ Sql.c_doctor_id row = "A".
Proof.
  refine (@X4_start_chat_returns_a_conversation_of_the_pair
            (boot (service db_X (Some "B"))) "B" "A" "id-0" eq_refl _ eq_refl).
  discriminate.
Defined.

End StartChat.

(* ================================================================== *)
(** ** Creating a group *)

Section CreateGroup.

Import Backend ChatStore.







(** X6: a group whose members could not be added is left behind.  When
    the insert of the group goes through and the insert of its members is
    lost in transit, [createGroupChat] throws that failure and records its
    message, the member table is as before, and the new group row stays
    in the database without a single member. *)
Theorem X6_create_group_is_not_undone_when_members_fail
    (s : Sys) (uid : uuid) (name : string) (memberIds : list uuid)
    (e : JsError) (rest : list (option JsError)) :
  session (world s) = Some uid ->
  faults (world s) = None :: Some e :: rest ->
  existsb (fun g => String.eqb (Sql.g_id g)
                      (uuid_source (world s) (uuid_drawn (world s))))
          (Sql.chat_groups (db (world s))) = false ->
  let gid := uuid_source (world s) (uuid_drawn (world s)) in
  let s' := snd (createGroupChat name memberIds s) in
  fst (createGroupChat name memberIds s) = Threw e
  /\ error (store s') = Some (message e)
  /\ Sql.chat_groups (db (world s'))
     = Sql.chat_groups (db (world s))
       ++ [group_row gid name uid (clock (world s))]
  /\ Sql.chat_group_members (db (world s'))
     = Sql.chat_group_members (db (world s)).
Proof.
  intros Hu Hf Hfresh gid s'.
  unfold s', createGroupChat, try_catch, bind, getUser, await, ret, throw,
    set, request_insert, request_write, insert_chat_group.
  simpl. rewrite Hu. simpl. rewrite !Hf. simpl. rewrite Hfresh. simpl.
  now repeat split.
Qed.

(** "A" creates a group while the second request is lost. *)
Lemma X6_witness :
  fst (createGroupChat "ward" ["B"] second_request_lost)
  = Threw (Error "Network request failed")
  /\ map Sql.g_id
       (Sql.chat_groups
          (db (world (snd (createGroupChat "ward" ["B"]
                             second_request_lost)))))
     = ["id-0"]
  /\ Sql.chat_group_members
       (db (world (snd (createGroupChat "ward" ["B"] second_request_lost))))
     = [].
Proof.
  destruct (@X6_create_group_is_not_undone_when_members_fail
              second_request_lost "A" "ward" ["B"]
              (Error "Network request failed") [] eq_refl eq_refl eq_refl)
    as (H1 & _ & H3 & H4).
  split; [exact H1|]. split; [now rewrite H3 | exact H4].
Defined.

End CreateGroup.

(* ================================================================== *)
(** ** Opening a conversation *)

Section OpenAConversation.

Import Backend ChatStore.


Lemma request_read_ok {A : Type} (q : Sql.Db -> JsError + A) (w : World) :
  faults w = [] -> request_read q w = (q (db w), w).
Proof. intros H. unfold request_read. now rewrite H. Qed.

Lemma no_chat_row (chatId : uuid) (w : World) :
  (forall c, In c (Sql.chats (db w)) -> Sql.c_id c <> chatId) ->
  row_of (fst (request_read (select_chat_by_id chatId) w)) = None.
Proof.
  intros H. unfold request_read, select_chat_by_id.
  rewrite (@filter_none _ _ (Sql.chats (db w))).
  - now destruct (faults w) as [|[e|] rest].
  - intros c Hc. apply String.eqb_neq. now apply H.
Qed.

Lemma no_group_row (chatId : uuid) (w : World) :
  (forall g, In g (Sql.chat_groups (db w)) -> Sql.g_id g <> chatId) ->
  row_of (fst (request_read (select_group_by_id chatId) w)) = None.
Proof.
  intros H. unfold request_read, select_group_by_id.
  rewrite (@filter_none _ _ (Sql.chat_groups (db w))).
  - now destruct (faults w) as [|[e|] rest].
  - intros g Hg. apply String.eqb_neq. now apply H.
Qed.

(** X7: opening an id that names neither a chat nor a group.  For a
    signed-in user, [fetchMessages] then ends with the error "Chat not
    found" and with the loading flag off; the open conversation, the
    timeline, the directory and the database are as before. *)
Theorem X7_opening_an_unknown_conversation
    (s : Sys) (uid chatId : uuid) :
  session (world s) = Some uid ->
  (forall c, In c (Sql.chats (db (world s))) -> Sql.c_id c <> chatId) ->
  (forall g, In g (Sql.chat_groups (db (world s))) -> Sql.g_id g <> chatId) ->
  let s' := step (FetchMessages chatId) s in
  error (store s') = Some "Chat not found"
  /\ isLoading (store s') = false
  /\ currentChat (store s') = currentChat (store s)
  /\ messages (store s') = messages (store s)
  /\ chats (store s') = chats (store s)
  /\ db (world s') = db (world s).
Proof.
  intros Hu Hc Hg s'.
  unfold s', step, discard, fetchMessages, finally, try_catch, bind, set,
    getUser, await, throw.
  simpl. rewrite Hu. simpl.
  rewrite (@no_chat_row chatId (world s) Hc).
  rewrite no_group_row.
  - simpl. repeat split. now rewrite !request_read_db.
  - now rewrite request_read_db.
Qed.

(** "A" opens "Z" where only "X" exists. *)
Lemma X7_witness :
  error (store (step (FetchMessages "Z") open_on_X)) = Some "Chat not found"
  /\ currentChat (store (step (FetchMessages "Z") open_on_X))
     = currentChat (store open_on_X)
  /\ db (world (step (FetchMessages "Z") open_on_X)) = db (world open_on_X).
Proof.
  destruct (@X7_opening_an_unknown_conversation open_on_X "A" "Z" eq_refl)
    as (H1 & _ & H3 & _ & _ & H6).
  - intros c [<-|[]]. discriminate.
  - intros g [].
  - exact (conj H1 (conj H3 H6)).
Defined.




End OpenAConversation.

(* ================================================================== *)
(** ** What a refresh of the directory shows *)

Section Refresh.

Import Backend ChatStore.

Lemma perm_filter {R : Type} (p : R -> bool) (l l' : list R) :
  Permutation l l' -> Permutation (filter p l) (filter p l').
Proof.
  induction 1 as [|x l l' H IH|x y l|l l' l'' H1 IH1 H2 IH2]; simpl.
  - constructor.
  - destruct (p x); [now constructor | exact IH].
  - destruct (p x), (p y); try reflexivity. apply perm_swap.
  - now transitivity (filter p l').
Qed.

Lemma filter_all {R : Type} (p : R -> bool) (l : list R) :
  (forall r, In r l -> p r = true) -> filter p l = l.
Proof.
  induction l as [|r l IH]; intros H; [reflexivity|].
  simpl. rewrite (H r (or_introl eq_refl)). f_equal. apply IH.
  intros r' Hr'. apply H. now right.
Qed.

(** The entries of one type in a fresh listing. *)
Lemma listing_by_type (s : Sys) (uid : uuid) :
  session (world s) = Some uid ->
  faults (world s) = [] ->
  Permutation
    (filter (is_typed direct) (chats (store (step FetchChats s))))
    (map (processDirectChat uid) (select_direct_chats uid (db (world s))))
  /\ Permutation
       (filter (is_typed group) (chats (store (step FetchChats s))))
       (map processGroupChat (select_group_chats (db (world s)))).
Proof.
  intros Hu Hf. unfold step, discard. rewrite (fetchChats_listing s Hu Hf).
  simpl.
  set (ds := map (processDirectChat uid) _).
  set (gs := map processGroupChat _).
  assert (Hd : forall t, filter (is_typed t) ds
                         = if ChatType_eqb direct t then ds else []).
  { intros t. destruct t; simpl.
    - apply filter_all. intros c Hc. apply in_map_iff in Hc as (r & <- & _).
      reflexivity.
    - apply filter_none. intros c Hc. apply in_map_iff in Hc as (r & <- & _).
      reflexivity. }
  assert (Hg : forall t, filter (is_typed t) gs
                         = if ChatType_eqb group t then gs else []).
  { intros t. destruct t; simpl.
    - apply filter_none. intros c Hc. apply in_map_iff in Hc as (r & <- & _).
      reflexivity.
    - apply filter_all. intros c Hc. apply in_map_iff in Hc as (r & <- & _).
      reflexivity. }
  split.
  - rewrite (perm_filter _ (js_sort_perm Chat.last_message_at (ds ++ gs))).
    rewrite filter_app, Hd, Hg. simpl. now rewrite app_nil_r.
  - rewrite (perm_filter _ (js_sort_perm Chat.last_message_at (ds ++ gs))).
    rewrite filter_app, Hd, Hg. reflexivity.
Qed.

(** X16: the direct conversations a refresh shows are the viewer's.  For
    a signed-in viewer whose requests go through, the entries of type
    direct in the listing correspond one to one to the rows of [chats] in
    which the viewer is the user or the doctor, each entry showing its
    row's id, archive flag, mute flag and last-activity time. *)
Theorem X16_refresh_lists_the_viewers_direct_conversations
    (s : Sys) (uid : uuid) :
  session (world s) = Some uid ->
  faults (world s) = [] ->
  Permutation
    (map shown_of_entry
       (filter (is_typed direct) (chats (store (step FetchChats s)))))
    (map shown_of_row
       (filter (takes_part uid) (Sql.chats (db (world s))))).
Proof.
  intros Hu Hf. destruct (@listing_by_type s uid Hu Hf) as [Hd _].
  rewrite (Permutation_map shown_of_entry Hd).
  unfold select_direct_chats. rewrite !map_map. simpl.
  change (fun x : Sql.chats_row =>
            shown_of_entry (processDirectChat uid _)) with shown_of_row.
  apply Permutation_map. apply (js_sort_perm Sql.c_last_message_at).
Qed.

(** "B" refreshes over a database that holds "X" and a group. *)
Lemma X16_witness :
  map shown_of_entry
    (filter (is_typed direct)
       (chats (store (step FetchChats
                        (boot (service (Sql.with_chats db_group [chat_X])
                                       (Some "B")))))))
  = [("X", false, false, 10)].
Proof.
  pose proof (@X16_refresh_lists_the_viewers_direct_conversations
                (boot (service (Sql.with_chats db_group [chat_X]) (Some "B")))
                "B" eq_refl eq_refl) as H.
  apply Permutation_sym, Permutation_length_1_inv in H. exact H.
Defined.

Lemma request_write_ok {A : Type} (q : Sql.Db -> (JsError + A) * Sql.Db)
    (w : World) :
  faults w = [] ->
  request_write q w = (fst (q (db w)), with_db w (snd (q (db w)))).
Proof. intros H. unfold request_write. now rewrite H. Qed.

(** With the requests going through, an entry action leaves the session
    and the transport as they are and changes the tables [chats] and
    [chat_messages] at most. *)
Lemma entry_action_effect (a : Action) (chatId : uuid) (s : Sys) :
  In a (entry_actions chatId) ->
  faults (world s) = [] ->
  session (world (step a s)) = session (world s)
  /\ faults (world (step a s)) = []
  /\ Sql.chat_groups (db (world (step a s)))
     = Sql.chat_groups (db (world s))
  /\ Sql.chat_group_members (db (world (step a s)))
     = Sql.chat_group_members (db (world s))
  /\ Sql.profiles (db (world (step a s))) = Sql.profiles (db (world s)).
Proof.
  intros Ha Hf. simpl in Ha.
  destruct Ha as [<-|[<-|[<-|[<-|[<-|[]]]]]];
    unfold step, discard, archiveChat, unarchiveChat, muteChat, unmuteChat,
      deleteChat, try_catch, bind, await, set, throw;
    rewrite (request_write_ok _ _ Hf); simpl; now repeat split.
Qed.

(** X10: archiving, muting or deleting a group does not last.  Whatever
    id one of the five entry actions is called with, the request only
    addresses the table of direct chats; so, requests going through, the
    refresh after the action shows exactly the group entries, flags
    included, that a refresh without the action would have shown. *)
Theorem X10_entry_actions_do_not_reach_groups
    (s : Sys) (uid chatId : uuid) (a : Action) :
  session (world s) = Some uid ->
  faults (world s) = [] ->
  In a (entry_actions chatId) ->
  Permutation
    (filter (is_typed group) (chats (store (run [a; FetchChats] s))))
    (filter (is_typed group) (chats (store (run [FetchChats] s)))).
Proof.
  intros Hu Hf Ha.
  destruct (@entry_action_effect a chatId s Ha Hf)
    as (Hu' & Hf' & Hg & Hm & Hp).
  rewrite Hu in Hu'. simpl.
  destruct (@listing_by_type (step a s) uid Hu' Hf') as [_ H1].
  destruct (@listing_by_type s uid Hu Hf) as [_ H2].
  rewrite H1, H2.
  unfold select_group_chats, embed_members, find_profile.
  rewrite Hg, Hm, Hp. reflexivity.
Qed.

(** "A" archives the group "G" and refreshes. *)
Lemma X10_witness :
  let s := boot (service db_group (Some "A")) in
  Permutation
    (filter (is_typed group)
       (chats (store (run [ArchiveChat "G"; FetchChats] s))))
    (filter (is_typed group) (chats (store (run [FetchChats] s)))).
Proof.
  intros s.
  refine (@X10_entry_actions_do_not_reach_groups s "A" "G" (ArchiveChat "G")
            eq_refl eq_refl _).
  now left.
Defined.

(** X11: a deleted direct conversation is gone for good.  Requests going
    through, after [deleteChat] the database holds no chat with that id
    and no message of it, every other chat and message is kept in place,
    and the next refresh shows no direct entry with that id. *)
Theorem X11_deleted_conversation_stays_deleted
    (s : Sys) (uid chatId : uuid) :
  session (world s) = Some uid ->
  faults (world s) = [] ->
  let s' := run [DeleteChat chatId; FetchChats] s in
  Sql.chats (db (world s'))
  = filter (fun c => negb (String.eqb (Sql.c_id c) chatId))
           (Sql.chats (db (world s)))
  /\ Sql.chat_messages (db (world s'))
     = filter (fun m => negb (sql_eq (Sql.m_chat_id m) chatId))
              (Sql.chat_messages (db (world s)))
  /\ Forall (fun c => Chat.id c <> chatId)
       (filter (is_typed direct) (chats (store s'))).
Proof.
  intros Hu Hf s'.
  assert (Ha : In (DeleteChat chatId) (entry_actions chatId))
    by (simpl; tauto).
  destruct (@entry_action_effect _ chatId s Ha Hf) as (Hu' & Hf' & _).
  rewrite Hu in Hu'.
  assert (Hdb : db (world (step (DeleteChat chatId) s))
                = snd (delete_chat chatId (db (world s)))).
  { unfold step, discard, deleteChat, try_catch, bind, await, set, throw.
    now rewrite (request_write_ok _ _ Hf). }
  assert (Hdb' : db (world s') = snd (delete_chat chatId (db (world s)))).
  { change s' with (snd (fetchChats (step (DeleteChat chatId) s))).
    destruct (fetchChats_frame (step (DeleteChat chatId) s))
      as (_ & _ & Hd & _).
    now rewrite Hd, Hdb. }
  split; [now rewrite Hdb'|]. split; [now rewrite Hdb'|].
  change s' with (step FetchChats (step (DeleteChat chatId) s)).
  destruct (@listing_by_type (step (DeleteChat chatId) s) uid Hu' Hf')
    as [H1 _].
  eapply Permutation_Forall; [symmetry; exact H1|].
  apply Forall_map. unfold select_direct_chats. apply Forall_map.
  eapply Permutation_Forall;
    [symmetry; apply (js_sort_perm Sql.c_last_message_at)|].
  apply Forall_forall. intros c Hc. apply filter_In in Hc as [Hc _].
  rewrite Hdb in Hc. simpl in Hc. apply filter_In in Hc as [_ Hc].
  simpl. apply negb_true_iff, String.eqb_neq in Hc. exact Hc.
Qed.

(** "A" deletes "X", which holds a message, and refreshes. *)
Lemma X11_witness :
  let s' := run [DeleteChat "X"; FetchChats]
                (boot (service db_own_unread (Some "A"))) in
  Sql.chats (db (world s')) = []
  /\ Sql.chat_messages (db (world s')) = []
  /\ chats (store s') = [].
Proof.
  intros s'.
  destruct (@X11_deleted_conversation_stays_deleted
              (boot (service db_own_unread (Some "A"))) "A" "X"
              eq_refl eq_refl) as (H1 & H2 & _).
  fold s' in H1, H2. rewrite H1, H2. now vm_compute.
Defined.

(** X15: a refresh hides failed reads.  For a signed-in viewer, when both
    listing reads are lost in transit the directory is replaced by the
    empty list, no error is recorded, the loading flag is off and the
    database is untouched. *)
Theorem X15_refresh_swallows_failed_reads
    (s : Sys) (uid : uuid) (e1 e2 : JsError) (rest : list (option JsError)) :
  session (world s) = Some uid ->
  faults (world s) = Some e1 :: Some e2 :: rest ->
  chats (store (step FetchChats s)) = []
  /\ error (store (step FetchChats s)) = None
  /\ isLoading (store (step FetchChats s)) = false
  /\ db (world (step FetchChats s)) = db (world s).
Proof.
  intros Hu Hf.
  unfold step, discard, fetchChats, finally, try_catch, bind, set, getUser,
    await, throw, request_read.
  simpl. rewrite Hu. simpl. rewrite !Hf. simpl. now repeat split.
Qed.

(** "A" holds a directory with "X" and refreshes while the network is
    down. *)
Lemma X15_witness :
  chats (store reads_lost) = [entry_X]
  /\ chats (store (step FetchChats reads_lost)) = []
  /\ error (store (step FetchChats reads_lost)) = None.
Proof.
  destruct (@X15_refresh_swallows_failed_reads reads_lost "A"
              (Error "Network request failed")
              (Error "Network request failed") [] eq_refl eq_refl)
    as (H1 & H2 & _).
  split; [reflexivity | exact (conj H1 H2)].
Defined.

End Refresh.

(* ================================================================== *)
(** ** More on the change feed, on sending and on the chat list *)

Section FeedSendList.

Import Backend ChatStore.



Lemma same_id_same_entry (l : list Chat.t) (x c : Chat.t) :
  NoDup (map Chat.id l) -> In x l -> In c l -> Chat.id x = Chat.id c -> x = c.
Proof.
  induction l as [|a l IH]; intros Hnd Hx Hc Hid; [destruct Hx|].
  simpl in Hnd. apply NoDup_cons_iff in Hnd as [Ha Hnd].
  destruct Hx as [->|Hx], Hc as [->|Hc]; auto.
  - exfalso. apply Ha. rewrite Hid. now apply in_map.
  - exfalso. apply Ha. rewrite <- Hid. now apply in_map.
Qed.

Lemma patched_map_in (chatId : uuid) (R : Chat.t -> Chat.t -> Prop)
    (f : Chat.t -> Chat.t) (l : list Chat.t) :
  (forall x, In x l -> String.eqb (Chat.id x) chatId = true -> R x (f x)) ->
  patched chatId R l
    (map (fun x => if String.eqb (Chat.id x) chatId then f x else x) l).
Proof.
  unfold patched. induction l as [|x l IH]; intros H; simpl; constructor.
  - destruct (String.eqb (Chat.id x) chatId) eqn:E; [|reflexivity].
    now apply H; [left|].
  - apply IH. intros y Hy. apply H. now right.
Qed.

Lemma map_back (chatId : uuid) (f g : Chat.t -> Chat.t) (l : list Chat.t) :
  (forall x, Chat.id (f x) = Chat.id x) ->
  (forall x, In x l -> String.eqb (Chat.id x) chatId = true -> g (f x) = x) ->
  map (fun x => if String.eqb (Chat.id x) chatId then g x else x)
      (map (fun x => if String.eqb (Chat.id x) chatId then f x else x) l)
  = l.
Proof.
  intros Hid Hback. rewrite map_map. rewrite <- (map_id l) at 2.
  apply map_ext_in. intros x Hx.
  destruct (String.eqb (Chat.id x) chatId) eqn:E.
  - rewrite Hid, E. now apply Hback.
  - now rewrite E.
Qed.

Lemma handleArchive_patch (chatId : uuid) (b : bool) (s : Sys) :
  faults (world s) = [] ->
  chats (store (snd (ChatList.handleArchive chatId b s)))
  = map (fun chat => if String.eqb (Chat.id chat) chatId
                     then Chat.with_is_archived chat (negb b) else chat)
        (chats (store s))
  /\ faults (world (snd (ChatList.handleArchive chatId b s))) = [].
Proof.
  intros Hf.
  unfold ChatList.handleArchive, archiveChat, unarchiveChat, try_catch, bind,
    await, set, throw.
  destruct b; rewrite (request_write_ok _ _ Hf); simpl; now split.
Qed.

Lemma handleMute_patch (chatId : uuid) (b : bool) (s : Sys) :
  faults (world s) = [] ->
  chats (store (snd (ChatList.handleMute chatId b s)))
  = map (fun chat => if String.eqb (Chat.id chat) chatId
                     then Chat.with_is_muted chat (negb b) else chat)
        (chats (store s))
  /\ faults (world (snd (ChatList.handleMute chatId b s))) = [].
Proof.
  intros Hf.
  unfold ChatList.handleMute, muteChat, unmuteChat, try_catch, bind,
    await, set, throw.
  destruct b; rewrite (request_write_ok _ _ Hf); simpl; now split.
Qed.

(** X12: the swipe actions of the chat list are toggles.  With distinct
    ids in the directory and requests going through, the archive action
    of a row, called as the list calls it with the row's id and current
    flag, inverts exactly that row's flag; taking it again on the row as
    then shown gives back the directory as it was.  The same holds for
    the mute action. *)
Theorem X12_swipe_actions_toggle
    (s : Sys) (c : Chat.t) :
  faults (world s) = [] ->
  NoDup (map Chat.id (chats (store s))) ->
  In c (chats (store s)) ->
  let archived := snd (ChatList.handleArchive (Chat.id c)
                         (Chat.is_archived c) s) in
  let muted := snd (ChatList.handleMute (Chat.id c) (Chat.is_muted c) s) in
  patched (Chat.id c)
    (fun x x' => same_but_archived x x'
                 /\ Chat.is_archived x' = negb (Chat.is_archived x))
    (chats (store s)) (chats (store archived))
  /\ chats (store (snd (ChatList.handleArchive (Chat.id c)
                          (negb (Chat.is_archived c)) archived)))
     = chats (store s)
  /\ patched (Chat.id c)
       (fun x x' => same_but_muted x x'
                    /\ Chat.is_muted x' = negb (Chat.is_muted x))
       (chats (store s)) (chats (store muted))
  /\ chats (store (snd (ChatList.handleMute (Chat.id c)
                          (negb (Chat.is_muted c)) muted)))
     = chats (store s).
Proof.
  intros Hf Hnd Hc archived muted.
  destruct (handleArchive_patch (Chat.id c) (Chat.is_archived c) s Hf)
    as [Ha Hfa].
  destruct (handleMute_patch (Chat.id c) (Chat.is_muted c) s Hf)
    as [Hm Hfm].
  fold archived in Ha, Hfa. fold muted in Hm, Hfm.
  destruct (handleArchive_patch (Chat.id c) (negb (Chat.is_archived c))
              archived Hfa) as [Ha2 _].
  destruct (handleMute_patch (Chat.id c) (negb (Chat.is_muted c))
              muted Hfm) as [Hm2 _].
  assert (Hsame : forall x, In x (chats (store s)) ->
                            String.eqb (Chat.id x) (Chat.id c) = true ->
                            x = c).
  { intros x Hx E. apply String.eqb_eq in E.
    exact (@same_id_same_entry _ x c Hnd Hx Hc E). }
  split; [|split; [|split]].
  - rewrite Ha. apply patched_map_in. intros x Hx E.
    rewrite <- (Hsame x Hx E). apply archived_only.
  - rewrite Ha2, Ha. apply map_back; [now intros x|].
    intros x Hx E. rewrite (Hsame x Hx E), negb_involutive. now destruct c.
  - rewrite Hm. apply patched_map_in. intros x Hx E.
    rewrite <- (Hsame x Hx E). apply muted_only.
  - rewrite Hm2, Hm. apply map_back; [now intros x|].
    intros x Hx E. rewrite (Hsame x Hx E), negb_involutive. now destruct c.
Qed.

(** "A" swipes the row of "X" twice. *)
Lemma X12_witness :
  let archived := snd (ChatList.handleArchive "X" false open_on_X) in
  map Chat.is_archived (chats (store archived)) = [true]
  /\ chats (store (snd (ChatList.handleArchive "X" true archived)))
     = chats (store open_on_X).
Proof.
  intros archived.
  destruct (@X12_swipe_actions_toggle open_on_X entry_X eq_refl)
    as (_ & H2 & _).
  - repeat constructor. intros [].
  - now left.
  - split; [reflexivity | exact H2].
Defined.

End FeedSendList.

Section SendAndReceive.

Import Backend ChatStore.

(** X13: a failed send leaves no trace.  When [sendMessage] ends with an
    error recorded, the store is what it was except for that error
    message, in particular the timeline and the directory, and the
    database is untouched. *)
Theorem X13_failed_send_changes_only_the_error
    (s : Sys) (body : string) :
  error (store (step (SendMessage body) s)) <> None ->
  (exists msg,
      store (step (SendMessage body) s) = set_error (Some msg) (store s))
  /\ db (world (step (SendMessage body) s)) = db (world s).
Proof.
  unfold step, discard, sendMessage, try_catch, bind, get, getUser, await,
    throw, set, request_insert, insert_chat_message.
  simpl.
  destruct (currentChat (store s)) as [c|]; simpl;
    [|intros _; split; [eexists|]; reflexivity].
  destruct (session (world s)) as [uid|] eqn:Eu; simpl;
    [|intros _; split; [eexists|]; reflexivity].
  destruct (faults (world s)) as [|[e|] rest] eqn:Ef; simpl;
    try (intros _; split; [eexists|]; reflexivity);
    destruct (existsb _ (Sql.chat_messages (db (world s)))) eqn:Efresh;
    simpl; try (intros _; split; [eexists|]; reflexivity);
    match goal with
    | |- context [fetchChats ?x] =>
        destruct (fetchChats_frame x) as (Hr & _ & _ & He);
        destruct (fetchChats x) as [[[]|e] s1]; simpl in *;
        try discriminate
    end;
    intros Herr; exfalso; apply Herr; apply He; now rewrite Eu.
Qed.

(** Nobody is signed in and "hi" is sent. *)
Lemma X13_witness :
  store (step (SendMessage "hi") (signed_in_as None open_on_X))
  = set_error (Some "Not authenticated") (store (signed_in_as None open_on_X))
  /\ db (world (step (SendMessage "hi") (signed_in_as None open_on_X)))
     = db (world (signed_in_as None open_on_X)).
Proof.
  destruct (@X13_failed_send_changes_only_the_error
              (signed_in_as None open_on_X) "hi") as [_ H2].
  - discriminate.
  - split; [reflexivity | exact H2].
Defined.



End SendAndReceive.

Section StartChatEdges.

Import Backend ChatStore.

(** X17: [startChat] only knows the conversations the viewer started.
    When no row has the viewer as user and the peer as doctor, then,
    requests going through and the new id being free, [startChat] adds a
    row with the viewer as user and the peer as doctor and returns its
    id; a conversation of the same two people that the peer started does
    not prevent this. *)
Theorem X17_start_chat_creates_unless_the_viewer_started_one
    (s : Sys) (uid doctorId : uuid) :
  session (world s) = Some uid ->
  uid <> doctorId ->
  faults (world s) = [] ->
  (forall c, In c (Sql.chats (db (world s))) ->
             ~ (Sql.c_user_id c = uid /\ Sql.c_doctor_id c = doctorId)) ->
  existsb (fun c => String.eqb (Sql.c_id c)
                      (uuid_source (world s) (uuid_drawn (world s))))
          (Sql.chats (db (world s))) = false ->
  let new_id := uuid_source (world s) (uuid_drawn (world s)) in
  let t := clock (world s) in
  fst (startChat doctorId s) = Returned new_id
  /\ Sql.chats (db (world (snd (startChat doctorId s))))
     = Sql.chats (db (world s))
       ++ [{| Sql.c_id := new_id; Sql.c_user_id := uid;
              Sql.c_doctor_id := doctorId; Sql.c_is_archived := false;
              Sql.c_is_muted := false; Sql.c_created_at := t;
              Sql.c_updated_at := t; Sql.c_last_message_at := t;
              Sql.c_unread_count := 0 |}].
Proof.
  intros Hu Hne Hf Hnone Hfresh new_id t.
  assert (Hsel : select_existing_chat uid doctorId (db (world s))
                 = inl PGRST116).
  { unfold select_existing_chat. rewrite filter_none; [reflexivity|].
    intros c Hc. apply not_true_iff_false. intros E.
    apply lookup_selects_ordered_pair in E; [|exact Hne].
    exact (Hnone c Hc E). }
  assert (Hcheck :
    existsb (fun c => String.eqb (Sql.c_id c) new_id
                      || (String.eqb (Sql.c_user_id c) uid
                          && String.eqb (Sql.c_doctor_id c) doctorId))
            (Sql.chats (db (world s))) = false).
  { apply not_true_iff_false. intros E.
    apply existsb_exists in E as (c & Hc & E).
    apply orb_true_iff in E as [E|E].
    - assert (Ht : existsb (fun c => String.eqb (Sql.c_id c) new_id)
                           (Sql.chats (db (world s))) = true).
      { apply existsb_exists. now exists c. }
      unfold new_id in Ht. congruence.
    - apply andb_true_iff in E as [E1 E2].
      apply String.eqb_eq in E1, E2. exact (Hnone c Hc (conj E1 E2)). }
  unfold startChat, try_catch, bind, getUser, await, ret, throw, set,
    request_insert, insert_chat.
  simpl. rewrite Hu. simpl. rewrite (request_read_ok _ _ Hf), Hsel. simpl.
  rewrite !Hf. simpl. fold new_id. rewrite Hcheck. simpl.
  match goal with
  | |- context [fetchChats ?x] =>
      destruct (fetchChats_frame x) as (Hr & _ & Hd & _);
      destruct (fetchChats x) as [[[]|e] s1]; simpl in *;
      try discriminate
  end.
  rewrite Hd. simpl. now split.
Qed.

(** "B" starts a conversation with "A" although "A" already started one
    with "B". *)
Lemma X17_witness :
  map (fun c => (Sql.c_id c, Sql.c_user_id c, Sql.c_doctor_id c))
    (Sql.chats
       (db (world (snd (startChat "A" (boot (service db_X (Some "B"))))))))
  = [("X", "A", "B"); ("id-0", "B", "A")].
Proof.
  assert (Hne : "B" <> "A") by discriminate.
  assert (Hnone : forall c, In c (Sql.chats db_X) ->
                    ~ (Sql.c_user_id c = "B" /\ Sql.c_doctor_id c = "A")).
  { intros c [<-|[]] [H _]. discriminate. }
  rewrite (proj2 (@X17_start_chat_creates_unless_the_viewer_started_one
                    (boot (service db_X (Some "B"))) "B" "A"
                    eq_refl Hne eq_refl Hnone eq_refl)).
  reflexivity.
Defined.

(** X18: asking for a conversation with oneself.  When the peer is the
    viewer, the lookup selects the rows whose user is the viewer; if there
    is exactly one, [startChat] returns it, whoever its doctor is, and
    writes nothing. *)
Theorem X18_start_chat_with_oneself_returns_another_conversation
    (s : Sys) (uid : uuid) (row : Sql.chats_row) :
  session (world s) = Some uid ->
  next_fault (world s) = None ->
  filter (fun c => String.eqb (Sql.c_user_id c) uid)
         (Sql.chats (db (world s))) = [row] ->
  fst (startChat uid s) = Returned (Sql.c_id row)
  /\ db (world (snd (startChat uid s))) = db (world s).
Proof.
  intros Hu Hf Hrow.
  assert (Hsel : select_existing_chat uid uid (db (world s)) = inr row).
  { unfold select_existing_chat. rewrite String.eqb_refl.
    erewrite filter_ext; [rewrite Hrow; reflexivity|].
    intros c. simpl.
    destruct (String.eqb (Sql.c_user_id c) uid); simpl; [reflexivity|].
    apply andb_false_r. }
  unfold startChat, try_catch, bind, getUser, await, request_read, ret.
  simpl. rewrite Hu. simpl. unfold next_fault in Hf.
  destruct (faults (world s)) as [|[e|] rest]; try discriminate; simpl;
    rewrite Hsel; simpl; now split.
Qed.

(** "A" asks for a conversation with "A" while the only conversation "A"
    started is the one with "B". *)
Lemma X18_witness :
  fst (startChat "A" (boot (service db_X (Some "A")))) = Returned "X".
Proof.
  exact (proj1 (@X18_start_chat_with_oneself_returns_another_conversation
                  (boot (service db_X (Some "A"))) "A" chat_X
                  eq_refl eq_refl eq_refl)).
Defined.

End StartChatEdges.

Section InsertAndOpenGroup.

Import Backend ChatStore.

(** X19: a new message touches its conversation only.  When the insert
    of a message is accepted, the message is appended to the table; every
    chat with the message's chat id gets the message's time as last
    activity and as update time and one more on its unread counter, and
    no other chat changes; groups change only when the message has no
    chat id, and then every group with the message's group id gets the
    message's time as last activity and one more on its counter. *)
Theorem X19_insert_bumps_the_addressed_conversation
    (d : Sql.Db) (new_id : uuid) (t : timestamptz) (cid gid : option uuid)
    (sender content : string) (is_read : bool) :
  existsb (fun m => String.eqb (Sql.m_id m) new_id) (Sql.chat_messages d)
  = false ->
  let row := {| Sql.m_id := new_id; Sql.m_chat_id := cid;
                Sql.m_group_id := gid; Sql.m_sender_id := sender;
                Sql.m_content := content; Sql.m_is_read := is_read;
                Sql.m_created_at := t |} in
  let d' := snd (insert_chat_message new_id t cid gid sender content
                   is_read d) in
  Sql.chat_messages d' = Sql.chat_messages d ++ [row]
  /\ Sql.chats d'
     = map (fun c =>
              if sql_eq cid (Sql.c_id c)
              then {| Sql.c_id := Sql.c_id c;
                      Sql.c_user_id := Sql.c_user_id c;
                      Sql.c_doctor_id := Sql.c_doctor_id c;
                      Sql.c_is_archived := Sql.c_is_archived c;
                      Sql.c_is_muted := Sql.c_is_muted c;
                      Sql.c_created_at := Sql.c_created_at c;
                      Sql.c_updated_at := t;
                      Sql.c_last_message_at := t;
                      Sql.c_unread_count := Sql.c_unread_count c + 1 |}
              else c)
           (Sql.chats d)
  /\ Sql.chat_groups d'
     = match cid with
       | Some _ => Sql.chat_groups d
       | None =>
           map (fun g => if sql_eq gid (Sql.g_id g)
                         then Sql.group_bump t g else g)
               (Sql.chat_groups d)
       end.
Proof.
  intros Hfresh row d'. unfold d', insert_chat_message. rewrite Hfresh.
  cbn [snd]. fold row.
  destruct (after_insert_tables row
              (Sql.with_chat_messages d (Sql.chat_messages d ++ [row])))
    as [Hc Hg].
  rewrite Hc, Hg, triggers_keep_messages. now repeat split.
Qed.

(** "B" writes into "X". *)
Lemma X19_witness :
  map (fun c => (Sql.c_id c, Sql.c_last_message_at c, Sql.c_unread_count c))
    (Sql.chats (snd (insert_chat_message "m9" 40 (Some "X") None "B" "hello"
                       false db_own_unread)))
  = [("X", 40, 2)].
Proof.
  rewrite (proj1 (proj2 (@X19_insert_bumps_the_addressed_conversation
                           db_own_unread "m9" 40 (Some "X") None "B" "hello"
                           false eq_refl))).
  reflexivity.
Defined.



End InsertAndOpenGroup.
